(** * Price Optimization API: a shallow embedding of [src/app.py]

    The development follows the layout of the service:

    - Python values, insertion-ordered dictionaries and exceptions;
    - the numpy / pandas operations the handlers call ([np.arange],
      [np.clip], [np.where], [np.argmax], column selection);
    - the lazy loader ([try_load_model], [get_model_and_metadata]);
    - the feature builder ([make_input_df]);
    - the two handlers ([predict], [optimize]);
    - the grid of [optimize] and the ratios of [make_input_df] once more
      in binary64 arithmetic ([price_grid_double], [optimize_double],
      [price_ratios_double]);
    - the column lookups of the training script ([src/train.py]).

    Numbers.  In the handlers, Python floats are modelled as exact
    rationals ([Q]): every arithmetic operation of the source is the
    corresponding exact operation, and the literals [1e-6] and [1e-9]
    are the decimal fractions they denote.  IEEE rounding, overflow and
    NaN are outside that model; the one place where the program can
    produce a non-finite value on finite input without rounding (numpy's
    division by an exact zero) is kept as a value of its own.
    [np.expm1] is a parameter of the development, as is the cost
    constant [COGS] read from the environment at import.

    Where a property turns on the rounding itself (whether the grid's
    tolerance survives, whether a quotient overflows), the operation is
    followed a second time in binary64 arithmetic: a double is the
    rational it denotes, and every operation rounds its exact result to
    the nearest double, ties to even ([round_double]). *)

From Stdlib Require Import QArith Qround Qminmax Qabs Qpower ZArith List String Bool Lia Lqa Sorted.
From Stdlib Require Import Floats.
Import ListNotations.

Local Open Scope Q_scope.

(** ** Python values and exceptions *)

(** The values that occur in request payloads and feature rows.  [PyInf]
    and [PyNaN] are what numpy returns for a float64 divided by an exact
    zero; Python's own float division raises instead. *)
Inductive pyval : Type :=
| PyNone
| PyInt (z : Z)
| PyFloat (q : Q)
| PyStr (s : string)
| PyInf (negative : bool)
| PyNaN.

Inductive exn : Type :=
| ZeroDivisionError
| KeyError (key : string)
| TypeError
| ValueError
| IndexError
| MemoryError.

(** A computation that returns or raises. *)
Inductive result (A : Type) : Type :=
| Ok (a : A)
| Raise (e : exn).
Arguments Ok {A} a.
Arguments Raise {A} e.

Definition bind {A B : Type} (r : result A) (k : A -> result B) : result B :=
  match r with
  | Ok a => k a
  | Raise e => Raise e
  end.

Notation "'let*' x ':=' r 'in' k" := (bind r (fun x => k))
  (at level 10, x name, r at level 100, k at level 200).

Fixpoint mapM {A B : Type} (f : A -> result B) (l : list A) : result (list B) :=
  match l with
  | [] => Ok []
  | a :: l' =>
      let* b := f a in
      let* bs := mapM f l' in
      Ok (b :: bs)
  end.

(** What a handler answers: a JSON body, an [HTTPException] raised on
    purpose, or an exception nobody catches (the framework turns it into
    an internal server error). *)
Inductive response (A : Type) : Type :=
| Response200 (body : A)
| HTTPException (status_code : Z) (detail : string)
| Unhandled (e : exn).
Arguments Response200 {A} body.
Arguments HTTPException {A} status_code detail.
Arguments Unhandled {A} e.

(** ** Dictionaries

    A Python [dict] keeps its keys in insertion order; assigning to a key
    that is already present replaces the value where it stands. *)
Definition dict : Type := list (string * pyval).

Fixpoint dict_get (k : string) (d : dict) : option pyval :=
  match d with
  | [] => None
  | (k', v) :: d' => if String.eqb k k' then Some v else dict_get k d'
  end.

(** [d.get(k, default)] *)
Definition dict_get_default (k : string) (d : dict) (default : pyval) : pyval :=
  match dict_get k d with
  | Some v => v
  | None => default
  end.

(** [d[k]] *)
Definition dict_getitem (k : string) (d : dict) : result pyval :=
  match dict_get k d with
  | Some v => Ok v
  | None => Raise (KeyError k)
  end.

(** [d[k] = v] *)
Fixpoint dict_set (k : string) (v : pyval) (d : dict) : dict :=
  match d with
  | [] => [(k, v)]
  | (k', v') :: d' =>
      if String.eqb k k' then (k, v) :: d' else (k', v') :: dict_set k v d'
  end.

Definition dict_keys (d : dict) : list string := map fst d.

(** ** Float arithmetic *)

Definition Qltb (a b : Q) : bool := negb (Qle_bool b a).

(** The operand of a float operation. *)
Definition as_float (v : pyval) : result Q :=
  match v with
  | PyFloat q => Ok q
  | PyInt z => Ok (inject_Z z)
  | _ => Raise TypeError
  end.

(** Python's [a / b] on floats, with the quotient kept exact (for the
    rounded quotient and its overflow see [py_truediv_double]). *)
Definition py_truediv (a b : Q) : result Q :=
  if Qeq_bool b 0 then Raise ZeroDivisionError else Ok (a / b).

(** numpy's [a / b] for a float64 [a]: no exception, IEEE result. *)
Definition np_truediv (a b : Q) : pyval :=
  if Qeq_bool b 0 then
    if Qltb 0 a then PyInf false
    else if Qltb a 0 then PyInf true
    else PyNaN
  else PyFloat (a / b).

(** Python's builtin [max(a, b)]: the first argument unless the second
    is greater. *)
Definition py_max (a b : Q) : Q := if Qltb a b then b else a.

Definition eps_ratio : Q := 1 # 1000000.        (* 1e-6 *)
Definition eps_grid : Q := 1 # 1000000000.      (* 1e-9 *)

(** ** numpy and pandas *)

(** A data frame built from a list of row dictionaries. *)
Definition DataFrame : Type := list dict.

(** [df[c]]: the column, or [KeyError] when no row has it (so also on a
    frame without rows); a row that lacks it shows NaN. *)
Definition df_getitem (c : string) (df : DataFrame) : result (list pyval) :=
  if existsb (fun r => match dict_get c r with Some _ => true | None => false end) df
  then Ok (map (fun r => dict_get_default c r PyNaN) df)
  else Raise (KeyError c).

(** [np.arange(start, stop, step)] on Python floats: the length is
    [ceil((stop - start) / step)] (none when that is not positive), the
    division raising on a zero step; element [i] is [start + i * step]. *)
Definition np_arange (start stop step : Q) : result (list Q) :=
  let* len := py_truediv (stop - start) step in
  Ok (map (fun i => start + inject_Z (Z.of_nat i) * step)
          (seq 0 (Z.to_nat (Qceiling len)))).

(** [np.clip(a, lo, None)] *)
Definition np_clip_lower (a : list Q) (lo : Q) : list Q :=
  map (fun x => if Qltb x lo then lo else x) a.

(** [np.where(margins > 0, margins * qtys, 0.0)] *)
Definition np_where_profit (margins qtys : list Q) : list Q :=
  map (fun mq => if Qltb 0 (fst mq) then fst mq * snd mq else 0)
      (combine margins qtys).

(** [np.argmax]: the index of the first maximal element; [ValueError]
    on an empty array. *)
Fixpoint argmax_from (best_idx : nat) (best : Q) (idx : nat) (l : list Q) : nat :=
  match l with
  | [] => best_idx
  | x :: l' =>
      if Qltb best x then argmax_from idx x (S idx) l'
      else argmax_from best_idx best (S idx) l'
  end.

Definition np_argmax (l : list Q) : result nat :=
  match l with
  | [] => Raise ValueError
  | x :: l' => Ok (argmax_from 0%nat x 1%nat l')
  end.

(** ** The model artifact and its metadata *)

(** The fitted pipeline is opaque: [predict] scores a frame and returns
    one value per row.  A pipeline that rejects a frame by raising is
    outside this record. *)
Record Model : Type := {
  model_predict : DataFrame -> list Q;
  model_predict_length : forall df, List.length (model_predict df) = List.length df
}.

(** The JSON descriptor; only the two column lists are read.  [None]
    is an absent key.  A descriptor that holds something other than a
    list of names under one of the keys is outside this record. *)
Record Metadata : Type := {
  num_cols : option (list string);
  cat_cols : option (list string)
}.

(** What is stored under a configured path when the loader looks:
    nothing, a file whose load raises, a file that loads as [None] (a
    JSON [null], a pickled [None]), or a file that loads as a value. *)
Inductive File (A : Type) : Type :=
| Missing
| Unreadable
| StoredNone
| Stored (a : A).
Arguments Missing {A}.
Arguments Unreadable {A}.
Arguments StoredNone {A}.
Arguments Stored {A} a.

Record Env : Type := {
  model_file : File Model;
  metadata_file : File Metadata
}.

(** The module globals.  [load_calls] is instrumentation: it counts the
    invocations of [try_load_model]. *)
Record State : Type := {
  MODEL : option Model;
  METADATA : option Metadata;
  load_calls : nat
}.

Definition initial_state : State :=
  {| MODEL := None; METADATA := None; load_calls := 0 |}.

(** The [try] block stops at the first failure: an unreadable model
    leaves both values [None]; unreadable metadata keeps the model. *)
Definition try_load_model (env : Env) : option Model * option Metadata :=
  match model_file env with
  | Unreadable => (None, None)
  | Missing | StoredNone =>
      (None, match metadata_file env with Stored md => Some md | _ => None end)
  | Stored m =>
      (Some m, match metadata_file env with Stored md => Some md | _ => None end)
  end.

Definition get_model_and_metadata (env : Env) (st : State)
  : option Model * option Metadata * State :=
  match MODEL st, METADATA st with
  | Some _, Some _ => (MODEL st, METADATA st, st)
  | _, _ =>
      let '(m, md) := try_load_model env in
      (m, md, {| MODEL := m; METADATA := md; load_calls := S (load_calls st) |})
  end.

(** A run of calls, each against the files as they are at that moment. *)
Fixpoint run_calls (envs : list Env) (st : State) : State :=
  match envs with
  | [] => st
  | env :: envs' => run_calls envs' (snd (get_model_and_metadata env st))
  end.

(** ** Requests *)

Record PredictRequest : Type := {
  unit_price : Q;
  comp_1 : Q;
  comp_2 : Q;
  comp_3 : Q;
  freight_price : Q;
  product_category_name : option string
}.

Definition py_optional_str (o : option string) : pyval :=
  match o with
  | Some s => PyStr s
  | None => PyNone
  end.

(** [req.dict()] *)
Definition req_dict (req : PredictRequest) : dict :=
  [ ("unit_price"%string, PyFloat (unit_price req));
    ("comp_1"%string, PyFloat (comp_1 req));
    ("comp_2"%string, PyFloat (comp_2 req));
    ("comp_3"%string, PyFloat (comp_3 req));
    ("freight_price"%string, PyFloat (freight_price req));
    ("product_category_name"%string, py_optional_str (product_category_name req)) ].

(** ** Feature builder *)

Local Open Scope string_scope.

(** [l[i]] *)
Definition py_index {A : Type} (l : list A) (i : nat) : result A :=
  match nth_error l i with
  | Some x => Ok x
  | None => Raise IndexError
  end.

(** [p[k]] read as a float operand. *)
Definition float_item (k : string) (p : dict) : result Q :=
  let* v := dict_getitem k p in as_float v.

(** [p['unit_price'] / (p[comp] + 1e-6)], Python float division: both
    items are looked up first, then the sum is formed, then the
    quotient. *)
Definition price_ratio (p : dict) (comp : string) : result pyval :=
  let* uv := dict_getitem "unit_price" p in
  let* cv := dict_getitem comp p in
  let* c := as_float cv in
  let* u := as_float uv in
  let* r := py_truediv u (c + eps_ratio) in
  Ok (PyFloat r).

(** The first half of [make_input_df]: the copy of the payload with the
    three ratios assigned in turn. *)
Definition add_price_ratios (payload : dict) : result dict :=
  let p := payload in
  let* r1 := price_ratio p "comp_1" in
  let p := dict_set "price_ratio_comp1" r1 p in
  let* r2 := price_ratio p "comp_2" in
  let p := dict_set "price_ratio_comp2" r2 p in
  let* r3 := price_ratio p "comp_3" in
  Ok (dict_set "price_ratio_comp3" r3 p).

(** [{k: p.get(k, 0) for k in num_cols}], then [row[c] = p.get(c)] for
    every categorical column. *)
Definition build_row (p : dict) (ncs ccs : list string) : dict :=
  let row :=
    fold_left (fun row k => dict_set k (dict_get_default k p (PyInt 0)) row) ncs [] in
  fold_left (fun row c => dict_set c (dict_get_default c p PyNone) row) ccs row.

(** [METADATA.get('cat_cols', [])] *)
Definition declared_cat_cols (md : Metadata) : list string :=
  match cat_cols md with
  | Some ccs => ccs
  | None => []
  end.

(** [make_input_df] reads the global [METADATA]. *)
Definition make_input_df (st : State) (payload : dict) : result DataFrame :=
  let* p := add_price_ratios payload in
  match METADATA st with
  | Some md =>
      match num_cols md with
      | Some ncs => Ok [build_row p ncs (declared_cat_cols md)]
      | None => Ok [p]
      end
  | None => Ok [p]
  end.

(** ** Handlers *)

Record PredictionResult : Type := {
  predicted_qty : Q;
  predicted_profit : Q
}.

Record OptimizationResult : Type := {
  best_price : Q;
  best_profit : Q;
  best_qty : Q
}.

Record HealthResult : Type := {
  status : string;
  model_loaded : bool
}.

Definition respond {A : Type} (r : result A) : response A :=
  match r with
  | Ok a => Response200 a
  | Raise e => Unhandled e
  end.

(** The property a handler's answer has when it is a body. *)
Definition body_satisfies {A : Type} (P : A -> Prop) (r : response A) : Prop :=
  match r with
  | Response200 body => P body
  | _ => True
  end.

(** One row of the optimizer's loop: the copy of [base] with the
    candidate price and the ratios numpy computes from it. *)
Definition candidate_row (base : dict) (p : Q) : result dict :=
  let r := base in
  let r := dict_set "unit_price" (PyFloat p) r in
  let* c1 := float_item "comp_1" r in
  let r := dict_set "price_ratio_comp1" (np_truediv p (c1 + eps_ratio)) r in
  let* c2 := float_item "comp_2" r in
  let r := dict_set "price_ratio_comp2" (np_truediv p (c2 + eps_ratio)) r in
  let* c3 := float_item "comp_3" r in
  let r := dict_set "price_ratio_comp3" (np_truediv p (c3 + eps_ratio)) r in
  Ok r.

(** The three ratio columns of a row priced at [p]. *)
Definition ratio_columns (ratio : Q -> pyval) (req : PredictRequest) : dict :=
  [ ("price_ratio_comp1", ratio (comp_1 req + eps_ratio));
    ("price_ratio_comp2", ratio (comp_2 req + eps_ratio));
    ("price_ratio_comp3", ratio (comp_3 req + eps_ratio)) ].

(** Closed form of [candidate_row] on [req.dict()] (see
    [candidate_row_req]): every field of the request but [unit_price],
    the candidate price in its place, and the ratios numpy computes from
    the candidate price. *)
Definition candidate_features (req : PredictRequest) (p : Q) : dict :=
  ([ ("unit_price", PyFloat p);
     ("comp_1", PyFloat (comp_1 req));
     ("comp_2", PyFloat (comp_2 req));
     ("comp_3", PyFloat (comp_3 req));
     ("freight_price", PyFloat (freight_price req));
     ("product_category_name", py_optional_str (product_category_name req)) ]
   ++ ratio_columns (np_truediv p) req)%list.

(** [np.arange(min_price, max_price + 1e-9, step)] *)
Definition price_grid (min_price max_price step : Q) : result (list Q) :=
  np_arange min_price (max_price + eps_grid) step.

Section Service.

(** [np.expm1], and the constant read from the [COGS] variable. *)
Variable expm1 : Q -> Q.
Variable COGS : Q.

(** Lines 88-92 of [predict]. *)
Definition prediction_of (log_pred : Q) (req : PredictRequest) : PredictionResult :=
  let qty := expm1 log_pred in
  let qty := py_max 0 qty in
  let margin := unit_price req - COGS - freight_price req in
  let profit := py_max 0 (margin * qty) in
  {| predicted_qty := qty; predicted_profit := profit |}.

Definition predict_body (st : State) (m : Model) (req : PredictRequest)
  : result PredictionResult :=
  let* df := make_input_df st (req_dict req) in
  let* log_pred := py_index (model_predict m df) 0 in
  Ok (prediction_of log_pred req).

Definition predict (env : Env) (st : State) (req : PredictRequest)
  : response PredictionResult * State :=
  let '(model, _, st') := get_model_and_metadata env st in
  match model with
  | None => (HTTPException 503 "Model not loaded", st')
  | Some m => (respond (predict_body st' m req), st')
  end.

(** [np.clip(np.expm1(log_preds), 0.0, None)] *)
Definition optimize_qtys (m : Model) (df : DataFrame) : list Q :=
  np_clip_lower (map expm1 (model_predict m df)) 0.

(** [df['unit_price'] - COGS - df['freight_price']] *)
Definition optimize_margins (df : DataFrame) : result (list Q) :=
  let* ups := let* s := df_getitem "unit_price" df in mapM as_float s in
  let* frs := let* s := df_getitem "freight_price" df in mapM as_float s in
  Ok (map (fun uf => fst uf - COGS - snd uf) (combine ups frs)).

Definition optimize_rows (base : dict) (prices : list Q) : result DataFrame :=
  mapM (candidate_row base) prices.

(** The profits array of one scan. *)
Definition optimize_profits (m : Model) (df : DataFrame) : result (list Q) :=
  let qtys := optimize_qtys m df in
  let* margins := optimize_margins df in
  Ok (np_where_profit margins qtys).

(** Lines 113-123: score the frame, take the first maximal profit. *)
Definition optimize_select (m : Model) (prices : list Q) (df : DataFrame)
  : result OptimizationResult :=
  let qtys := optimize_qtys m df in
  let* profits := optimize_profits m df in
  let* best_idx := np_argmax profits in
  let* bprice := py_index prices best_idx in
  let* bprofit := py_index profits best_idx in
  let* bqty := py_index qtys best_idx in
  Ok {| best_price := bprice; best_profit := bprofit; best_qty := bqty |}.

Definition optimize_body (m : Model) (req : PredictRequest)
    (min_price max_price step : Q) : result OptimizationResult :=
  let base := req_dict req in
  let* prices := price_grid min_price max_price step in
  let* df := optimize_rows base prices in
  optimize_select m prices df.

Definition optimize (env : Env) (st : State) (req : PredictRequest)
    (min_price max_price step : Q) : response OptimizationResult * State :=
  let '(model, _, st') := get_model_and_metadata env st in
  match model with
  | None => (HTTPException 503 "Model not loaded", st')
  | Some m => (respond (optimize_body m req min_price max_price step), st')
  end.

End Service.

Definition health (env : Env) (st : State) : response HealthResult * State :=
  let '(model, _, st') := get_model_and_metadata env st in
  (Response200 {| status := "ok";
                  model_loaded := match model with Some _ => true | None => false end |},
   st').

(** ** Binary64 arithmetic

    A finite double is the rational it denotes.  [round_double] rounds a
    rational to the nearest double, ties to even, with 53 bits of
    precision and gradual underflow; it does not bound the exponent from
    above, and the operations that can overflow compare the rounded
    value with [double_max]. *)

(** [floor (log2 |q|)] for a nonzero [q]. *)
Definition Qfloor_log2 (q : Q) : Z :=
  let e0 := (Z.log2 (Z.abs (Qnum q)) - Z.log2 (Zpos (Qden q)))%Z in
  if Qle_bool (Qpower 2 e0) (Qabs q) then e0 else (e0 - 1)%Z.

Definition round_half_even (q : Q) : Z :=
  let f := Qfloor q in
  match Qcompare (q - inject_Z f) (1 # 2) with
  | Lt => f
  | Gt => (f + 1)%Z
  | Eq => if Z.even f then f else (f + 1)%Z
  end.

Definition round_double (q : Q) : Q :=
  let q := Qred q in
  if Qeq_bool q 0 then 0
  else
    let e := Z.max (Qfloor_log2 q - 52) (-1074) in
    Qred (inject_Z (round_half_even (q / Qpower 2 e)) * Qpower 2 e).

(** The largest finite double. *)
Definition double_max : Q := inject_Z (2 ^ 1024 - 2 ^ 971).

Definition fl_add (a b : Q) : Q := round_double (a + b).
Definition fl_sub (a b : Q) : Q := round_double (a - b).
Definition fl_mul (a b : Q) : Q := round_double (a * b).
Definition fl_div (a b : Q) : Q := round_double (a / b).

(** A rational that is a double. *)
Definition representable (x : Q) : Prop := round_double x == x.

(** The value of a finite primitive float, to compare [round_double]
    with the kernel's binary64 operations. *)
Definition double_value (x : float) : option Q :=
  match Prim2SF x with
  | S754_zero _ => Some 0
  | S754_finite s m e =>
      Some (Qred ((if s then - (1) else 1) * inject_Z (Zpos m) * Qpower 2 e))
  | _ => None
  end.

(** Whether [f], applied to the values of [x] and [y], gives the value
    of the primitive float [r]: the same double when [r] is finite, a
    value beyond [double_max] when it is not. *)
Definition agrees_with_binary64 (f : Q -> Q -> Q) (x y r : float) : bool :=
  match double_value x, double_value y with
  | Some a, Some b =>
      match double_value r with
      | Some v => Qeq_bool (f a b) v
      | None => negb (Qle_bool (Qabs (f a b)) double_max)
      end
  | _, _ => false
  end.

(** The literals [1e-6] and [1e-9] as the doubles Python reads. *)
Definition eps_ratio_double : Q := round_double eps_ratio.
Definition eps_grid_double : Q := round_double eps_grid.

(** The quotient [a / b] of two doubles, [b] nonzero: beyond
    [double_max] it is [inf]. *)
Definition float_quotient (a b : Q) : pyval :=
  let q := fl_div a b in
  if Qle_bool (Qabs q) double_max then PyFloat q else PyInf (Qltb q 0).

(** Python's [a / b] on doubles: a zero divisor raises; an overflowing
    quotient is [inf], and no exception. *)
Definition py_truediv_double (a b : Q) : result pyval :=
  if Qeq_bool b 0 then Raise ZeroDivisionError else Ok (float_quotient a b).

(** numpy's [a / b] on doubles: no exception; a zero divisor gives
    [inf] or [nan]. *)
Definition np_truediv_double (a b : Q) : pyval :=
  if Qeq_bool b 0 then
    if Qltb 0 a then PyInf false
    else if Qltb a 0 then PyInf true
    else PyNaN
  else float_quotient a b.

(** [unit_price / (comp + 1e-6)] of [make_input_df], on doubles. *)
Definition price_ratio_double (unit_price comp : Q) : result pyval :=
  py_truediv_double unit_price (fl_add comp eps_ratio_double).

(** The largest array length, [NPY_MAX_INTP]. *)
Definition npy_max_intp : Z := 2 ^ 63 - 1.

(** The quotient [np.arange] takes the ceiling of,
    [(stop - start) / step] on doubles; [None] stands for an infinite
    quotient. *)
Definition arange_quotient (start stop step : Q) : option Q :=
  let delta := fl_sub stop start in
  if Qle_bool (Qabs delta) double_max then
    let val := fl_div delta step in
    if Qle_bool (Qabs val) double_max then Some val else None
  else None.

(** The length [np.arange] computes from a finite quotient: its ceiling,
    except that a quotient that underflowed to zero from a nonzero
    difference counts one point when it is positive and none when it is
    negative. *)
Definition arange_length (start stop step val : Q) : Z :=
  let delta := fl_sub stop start in
  if Qeq_bool val 0 && negb (Qeq_bool delta 0)
  then (if Qltb (delta / step) 0 then 0 else 1)%Z
  else Qceiling val.

(** Point [i] of [np.arange(start, _, step)]: the first two are [start]
    and [start + step], and the others are filled in from the
    difference [delta] of these two, as [start + i * delta]. *)
Definition arange_point (start step : Q) (i : nat) : Q :=
  match i with
  | O => start
  | S O => fl_add start step
  | _ => fl_add start (fl_mul (inject_Z (Z.of_nat i)) (fl_sub (fl_add start step) start))
  end.

(** [np.arange(start, stop, step)] on doubles.  A zero step raises in
    the division; a length that does not fit [npy_intp] (an infinite
    quotient among them) raises [ValueError]; a length that is not
    positive gives the empty array; a length above [max_alloc], the
    largest array the process can allocate, raises [MemoryError] (the
    very largest lengths numpy refuses with [ValueError] before it
    allocates; the two refusals are not told apart here). *)
Definition np_arange_double (max_alloc : Z) (start stop step : Q) : result (list Q) :=
  if Qeq_bool step 0 then Raise ZeroDivisionError
  else
    match arange_quotient start stop step with
    | None => Raise ValueError
    | Some val =>
        let len := arange_length start stop step val in
        if (len <? - npy_max_intp - 1)%Z || (npy_max_intp <? len)%Z then Raise ValueError
        else if (max_alloc <? len)%Z then Raise MemoryError
        else Ok (map (arange_point start step) (seq 0 (Z.to_nat len)))
    end.

(** [np.arange(min_price, max_price + 1e-9, step)] on doubles. *)
Definition price_grid_double (max_alloc : Z) (min_price max_price step : Q)
  : result (list Q) :=
  np_arange_double max_alloc min_price (fl_add max_price eps_grid_double) step.

(** The three ratios of [make_input_df] (lines 57-59), computed in turn
    on doubles from the fields of a request. *)
Definition price_ratios_double (req : PredictRequest) : result (pyval * pyval * pyval) :=
  let* r1 := price_ratio_double (unit_price req) (comp_1 req) in
  let* r2 := price_ratio_double (unit_price req) (comp_2 req) in
  let* r3 := price_ratio_double (unit_price req) (comp_3 req) in
  Ok (r1, r2, r3).

Section ServiceDouble.

(** [optimize] with its grid generated in binary64 arithmetic; the rows,
    the scoring and the selection are those of [optimize]. *)
Variable expm1 : Q -> Q.
Variable COGS : Q.
Variable max_alloc : Z.

Definition optimize_body_double (m : Model) (req : PredictRequest)
    (min_price max_price step : Q) : result OptimizationResult :=
  let base := req_dict req in
  let* prices := price_grid_double max_alloc min_price max_price step in
  let* df := optimize_rows base prices in
  optimize_select expm1 COGS m prices df.

Definition optimize_double (env : Env) (st : State) (req : PredictRequest)
    (min_price max_price step : Q) : response OptimizationResult * State :=
  let '(model, _, st') := get_model_and_metadata env st in
  match model with
  | None => (HTTPException 503 "Model not loaded", st')
  | Some m => (respond (optimize_body_double m req min_price max_price step), st')
  end.

End ServiceDouble.

(** ** Training script ([src/train.py])

    [build_and_train] is followed on the column index of its data frame:
    which columns exist after each step, which lookup raises [KeyError],
    and which column lists end up in the metadata it writes.  The cells,
    the fit and the file writes are library calls and are not followed:
    they can fail where the column index is in order (a header without
    rows, non-numeric cells, an output path that cannot be created), so
    a result here says that no column lookup raised, and what metadata
    is written if the script gets that far. *)

(** [c in df.columns] *)
Definition column_in (c : string) (columns : list string) : bool :=
  existsb (String.eqb c) columns.

(** [[c for c in ['product_id', 'month_year', 'total_price'] if c in df.columns]] *)
Definition train_drop_cols (columns : list string) : list string :=
  filter (fun c => column_in c columns) ["product_id"; "month_year"; "total_price"].

(** [df.drop(columns=drop_cols)], for columns that exist. *)
Definition drop_columns (drop columns : list string) : list string :=
  filter (fun c => negb (column_in c drop)) columns.

(** [df[new] = df[a] / (df[b] + 1e-6)]: both operands must exist; a new
    column goes last, an existing one keeps its place. *)
Definition assign_ratio_column (new a b : string) (columns : list string)
  : result (list string) :=
  if column_in a columns then
    if column_in b columns then
      Ok (if column_in new columns then columns else columns ++ [new])%list
    else Raise (KeyError b)
  else Raise (KeyError a).

Definition train_num_cols : list string :=
  ["unit_price"; "comp_1"; "comp_2"; "comp_3"; "freight_price";
   "price_ratio_comp1"; "price_ratio_comp2"; "price_ratio_comp3"].

(** [[c for c in ['product_category_name'] if c in df.columns]] *)
Definition train_cat_cols (columns : list string) : list string :=
  filter (fun c => column_in c columns) ["product_category_name"].

(** Python's [repr] of a list of labels. *)
Definition py_repr_labels (l : list string) : string :=
  "[" ++ String.concat ", " (map (fun c => "'" ++ c ++ "'") l) ++ "]".

(** [df[cols]] when at least one of the labels exists, as is the case
    after the ratio columns have been assigned: [KeyError] when labels
    are missing, with pandas' message listing them. *)
Definition select_columns (cols columns : list string) : result (list string) :=
  match filter (fun c => negb (column_in c columns)) cols with
  | [] => Ok cols
  | missing => Raise (KeyError (py_repr_labels missing ++ " not in index"))
  end.

(** The column lookups of [build_and_train] for a CSV with the given
    header: the [KeyError] of the first lookup that fails, or the column
    lists of the metadata written at the end. *)
Definition build_and_train_columns (csv_columns : list string) : result Metadata :=
  let drop_cols := train_drop_cols csv_columns in
  let columns :=
    match drop_cols with
    | [] => csv_columns
    | _ => drop_columns drop_cols csv_columns
    end in
  let* columns := assign_ratio_column "price_ratio_comp1" "unit_price" "comp_1" columns in
  let* columns := assign_ratio_column "price_ratio_comp2" "unit_price" "comp_2" columns in
  let* columns := assign_ratio_column "price_ratio_comp3" "unit_price" "comp_3" columns in
  let num_cols := train_num_cols in
  let cat_cols := train_cat_cols columns in
  let* _ := select_columns (num_cols ++ cat_cols)%list columns in
  let* _ := if column_in "qty" columns then Ok tt else Raise (KeyError "qty") in
  Ok {| num_cols := Some num_cols; cat_cols := Some cat_cols |}.

(** The columns [build_and_train] reads by name. *)
Definition train_required_columns : list string :=
  ["unit_price"; "comp_1"; "comp_2"; "comp_3"; "freight_price"; "qty"].

(** The header of the retail price data set, reduced to the columns the
    script names. *)
Definition retail_header : list string :=
  ["product_id"; "product_category_name"; "month_year"; "qty"; "total_price";
   "freight_price"; "unit_price"; "comp_1"; "comp_2"; "comp_3"].

(** ** Concrete artifacts used in the examples below *)

(** The stand-in for [np.expm1] in the examples.  It is exact at 0, the
    one rational argument at which [expm1] is rational, and negative on
    negative arguments like [expm1]; the examples feed it nothing else.
    The theorems hold for every function in its place. *)
Definition expm1_stub (x : Q) : Q := x.

(** A stub pipeline that predicts the same value for every row. *)
Definition constant_model (c : Q) : Model :=
  {| model_predict := fun df => map (fun _ => c) df;
     model_predict_length := fun df => length_map (fun _ => c) df |}.

Definition sample_request : PredictRequest :=
  {| unit_price := 100; comp_1 := 90; comp_2 := 95; comp_3 := 105;
     freight_price := 10; product_category_name := None |}.

Definition loaded_env (m : Model) : Env :=
  {| model_file := Stored m;
     metadata_file := Stored {| num_cols := None; cat_cols := None |} |}.

Definition empty_env : Env :=
  {| model_file := Missing; metadata_file := Missing |}.

(** A request on which the feature builder itself raises. *)
Definition zero_denominator_request : PredictRequest :=
  {| unit_price := 100; comp_1 := - eps_ratio; comp_2 := 95; comp_3 := 105;
     freight_price := 10; product_category_name := None |}.

Definition zero_competitor_request : PredictRequest :=
  {| unit_price := 100; comp_1 := 0; comp_2 := 95; comp_3 := 105;
     freight_price := 10; product_category_name := None |}.

Definition cheap_request : PredictRequest :=
  {| unit_price := 40; comp_1 := 90; comp_2 := 95; comp_3 := 105;
     freight_price := 10; product_category_name := None |}.

(** Metadata in which [region] is declared both numeric and categorical. *)
Definition overlapping_metadata : Metadata :=
  {| num_cols := Some ["unit_price"; "region"]; cat_cols := Some ["region"] |}.

(** Metadata as the training script writes it. *)
Definition trained_metadata : Metadata :=
  {| num_cols := Some ["unit_price"; "comp_1"; "comp_2"; "comp_3"; "freight_price";
                       "price_ratio_comp1"; "price_ratio_comp2"; "price_ratio_comp3"];
     cat_cols := Some ["product_category_name"] |}.

Definition state_with_metadata (md : Metadata) : State :=
  {| MODEL := None; METADATA := Some md; load_calls := 1 |}.

(** Two dictionaries that answer every lookup alike. *)
Definition dict_equiv (d1 d2 : dict) : Prop :=
  forall k, dict_get k d1 = dict_get k d2.

(** A payload with the request's fields in another order. *)
Definition shuffled_payload : dict :=
  [ ("product_category_name", PyNone);
    ("comp_3", PyFloat 105);
    ("freight_price", PyFloat 10);
    ("comp_1", PyFloat 90);
    ("unit_price", PyFloat 100);
    ("comp_2", PyFloat 95) ].


(** * Properties *)

(** ** Comparisons *)

Lemma Qltb_lt (a b : Q) : Qltb a b = true <-> a < b.
Proof.
  unfold Qltb. rewrite negb_true_iff.
  destruct (Qle_bool b a) eqn:E.
  - apply Qle_bool_iff in E. split; [discriminate | intro H; exfalso; lra].
  - split; [intros _ | reflexivity].
    apply Qnot_le_lt. intro H. apply Qle_bool_iff in H. congruence.
Qed.

Lemma Qltb_ge (a b : Q) : Qltb a b = false <-> b <= a.
Proof.
  unfold Qltb. rewrite negb_false_iff. apply Qle_bool_iff.
Qed.

Lemma Qeq_bool_false (a b : Q) : Qeq_bool a b = false <-> ~ a == b.
Proof.
  split.
  - intros E H. apply Qeq_bool_iff in H. congruence.
  - intro H. destruct (Qeq_bool a b) eqn:E; [| reflexivity].
    apply Qeq_bool_iff in E. contradiction.
Qed.

Ltac case_Qltb a b :=
  let E := fresh "E" in
  destruct (Qltb a b) eqn:E;
  [apply Qltb_lt in E | apply Qltb_ge in E].

(** ** Binary64 arithmetic *)

#[local] Set Warnings "-inexact-float".

(** [round_double] against the kernel's binary64 operations, on the
    operands that matter below. *)
Lemma round_double_agrees_with_binary64 :
  double_value (1e-9)%float = Some eps_grid_double /\
  double_value (1e-6)%float = Some eps_ratio_double /\
  double_value (10 + 1e-9)%float = Some (fl_add 10 eps_grid_double) /\
  double_value ((10 + 1e-9 - 1) / 1)%float
    = Some (fl_div (fl_sub (fl_add 10 eps_grid_double) 1) 1) /\
  double_value (16777216 + 1e-9)%float = Some 16777216 /\
  fl_add 16777216 eps_grid_double = 16777216 /\
  double_value (9007199254740992 + 1)%float = Some 9007199254740992 /\
  fl_add 9007199254740992 1 = 9007199254740992 /\
  double_value (0.1 + 0.2)%float
    = Some (fl_add (round_double (1 # 10)) (round_double (2 # 10))) /\
  double_value (1 / 3)%float = Some (fl_div 1 3) /\
  double_value (-1e-6 + 1e-6)%float = Some (fl_add (- eps_ratio_double) eps_ratio_double) /\
  double_value (100 / (0 + 1e-6))%float = Some (fl_div 100 (fl_add 0 eps_ratio_double)) /\
  double_value (1e308)%float = Some (round_double (10 ^ 308)) /\
  double_value (1e308 / (0 + 1e-6))%float = None /\
  (1e308 / (0 + 1e-6) =? infinity)%float = true /\
  float_quotient (round_double (10 ^ 308)) (fl_add 0 eps_ratio_double) = PyInf false.
Proof.
  repeat split; vm_compute; reflexivity.
Qed.

(** The same on a sample of operations: exact and inexact results, ties,
    absorbed addends, subnormal results and overflow. *)
Lemma round_double_agrees_on_samples :
  forallb (fun b => b)
    [ agrees_with_binary64 fl_add (1.5) (2.25) (1.5 + 2.25);
      agrees_with_binary64 fl_add (0.1) (0.2) (0.1 + 0.2);
      agrees_with_binary64 fl_add (1e16) (1) (1e16 + 1);
      agrees_with_binary64 fl_add (16777216) (1e-9) (16777216 + 1e-9);
      agrees_with_binary64 fl_add (300) (1e-9) (300 + 1e-9);
      agrees_with_binary64 fl_add (9007199254740992) (1) (9007199254740992 + 1);
      agrees_with_binary64 fl_add (1e308) (1e308) (1e308 + 1e308);
      agrees_with_binary64 fl_add (-1e-6) (1e-6) (-1e-6 + 1e-6);
      agrees_with_binary64 fl_add (4.9e-324) (4.9e-324) (4.9e-324 + 4.9e-324);
      agrees_with_binary64 fl_sub (10.000000001) (1) (10.000000001 - 1);
      agrees_with_binary64 fl_sub (1) (0.9) (1 - 0.9);
      agrees_with_binary64 fl_sub (1e-310) (3e-311) (1e-310 - 3e-311);
      agrees_with_binary64 fl_mul (3) (0.1) (3 * 0.1);
      agrees_with_binary64 fl_mul (7) (0.7) (7 * 0.7);
      agrees_with_binary64 fl_mul (1e200) (1e200) (1e200 * 1e200);
      agrees_with_binary64 fl_mul (1e-200) (1e-200) (1e-200 * 1e-200);
      agrees_with_binary64 fl_mul (3e-320) (0.5) (3e-320 * 0.5);
      agrees_with_binary64 fl_div (1) (3) (1 / 3);
      agrees_with_binary64 fl_div (100) (1e-6) (100 / 1e-6);
      agrees_with_binary64 fl_div (1e308) (1e-6) (1e308 / 1e-6);
      agrees_with_binary64 fl_div (299.000000001) (0.1) (299.000000001 / 0.1);
      agrees_with_binary64 fl_div (9.000000001) (1) (9.000000001 / 1);
      agrees_with_binary64 fl_div (1e-320) (3) (1e-320 / 3);
      agrees_with_binary64 fl_div (2) (1e300) (2 / 1e300) ]%float = true.
Proof.
  vm_compute. reflexivity.
Qed.

Lemma round_double_compat (a b : Q) : a == b -> round_double a = round_double b.
Proof.
  intro H. unfold round_double. rewrite (Qred_complete a b H). reflexivity.
Qed.

Lemma Qpower_2_pos (e : Z) : 0 < Qpower 2 e.
Proof.
  apply Qpower_0_lt. reflexivity.
Qed.

Lemma round_half_even_cases (q : Q) :
  round_half_even q = Qfloor q \/ round_half_even q = (Qfloor q + 1)%Z.
Proof.
  unfold round_half_even.
  destruct (Qcompare (q - inject_Z (Qfloor q)) (1 # 2)); auto.
  destruct (Z.even (Qfloor q)); auto.
Qed.

Lemma round_half_even_nonneg (q : Q) : 0 <= q -> (0 <= round_half_even q)%Z.
Proof.
  intro H.
  assert (Hf : (0 <= Qfloor q)%Z).
  { change 0%Z with (Qfloor 0). apply Qfloor_resp_le. exact H. }
  destruct (round_half_even_cases q) as [-> | ->]; lia.
Qed.

Lemma round_half_even_nonpos (q : Q) : q <= 0 -> (round_half_even q <= 0)%Z.
Proof.
  intro H.
  destruct (Qlt_le_dec q 0) as [Hlt | Hge].
  - assert (Hf : (Qfloor q < 0)%Z).
    { rewrite Zlt_Qlt. eapply Qle_lt_trans; [apply Qfloor_le | exact Hlt]. }
    destruct (round_half_even_cases q) as [-> | ->]; lia.
  - assert (E : q == 0) by lra.
    unfold round_half_even.
    assert (Hf : Qfloor q = 0%Z).
    { rewrite (Qfloor_comp _ _ E). reflexivity. }
    rewrite Hf.
    assert (Hc : Qcompare (q - inject_Z 0) (1 # 2) = Lt).
    { rewrite <- Qlt_alt. rewrite E. reflexivity. }
    rewrite Hc. lia.
Qed.

Lemma round_double_nonneg (x : Q) : 0 <= x -> 0 <= round_double x.
Proof.
  intro H. unfold round_double.
  destruct (Qeq_bool (Qred x) 0); [apply Qle_refl |].
  rewrite Qred_correct.
  apply Qmult_le_0_compat; [| apply Qlt_le_weak, Qpower_2_pos].
  change 0 with (inject_Z 0). rewrite <- Zle_Qle.
  apply round_half_even_nonneg.
  apply Qle_shift_div_l; [apply Qpower_2_pos |].
  rewrite Qmult_0_l, Qred_correct. exact H.
Qed.

Lemma round_double_nonpos (x : Q) : x <= 0 -> round_double x <= 0.
Proof.
  intro H. unfold round_double.
  destruct (Qeq_bool (Qred x) 0); [apply Qle_refl |].
  rewrite Qred_correct.
  set (e := Z.max _ _).
  assert (Hr : (round_half_even (Qred x / Qpower 2 e) <= 0)%Z).
  { apply round_half_even_nonpos.
    apply Qle_shift_div_r; [apply Qpower_2_pos |].
    rewrite Qmult_0_l, Qred_correct. exact H. }
  rewrite Zle_Qle in Hr.
  pose proof (Qpower_2_pos e) as Hp.
  change (inject_Z 0) with 0 in Hr.
  setoid_replace 0 with (0 * Qpower 2 e) by ring.
  apply Qmult_le_compat_r; [exact Hr | apply Qlt_le_weak, Hp].
Qed.

Lemma Qceiling_nonpos (x : Q) : x <= 0 -> (Qceiling x <= 0)%Z.
Proof.
  intro H. unfold Qceiling.
  assert (Hf : (0 <= Qfloor (- x))%Z).
  { change 0%Z with (Qfloor 0). apply Qfloor_resp_le. lra. }
  lia.
Qed.
(** Powers of two. *)

Lemma Qpower_2_Z (n : Z) : (0 <= n)%Z -> Qpower 2 n == inject_Z (2 ^ n).
Proof.
  intro H. symmetry. apply (Zpower_Qpower 2 n H).
Qed.

Lemma Qpower_2_plus (n m : Z) : Qpower 2 (n + m) == Qpower 2 n * Qpower 2 m.
Proof.
  apply Qpower_plus. discriminate.
Qed.

Lemma Qpower_2_le (n m : Z) : (n <= m)%Z -> Qpower 2 n <= Qpower 2 m.
Proof.
  intro H. replace m with (n + (m - n))%Z by lia.
  rewrite Qpower_2_plus, (Qpower_2_Z (m - n)) by lia.
  assert (H1 : 1 <= inject_Z (2 ^ (m - n))).
  { change 1 with (inject_Z 1). rewrite <- Zle_Qle.
    assert (0 < 2 ^ (m - n))%Z by (apply Z.pow_pos_nonneg; lia). lia. }
  pose proof (Qpower_2_pos n) as Hp.
  setoid_replace (Qpower 2 n) with (Qpower 2 n * 1) at 1 by ring.
  apply Qmult_le_l; assumption.
Qed.

Lemma Qabs_Qmake (q : Q) : Qabs q == inject_Z (Z.abs (Qnum q)) / inject_Z (Zpos (Qden q)).
Proof.
  destruct q as [n d]. simpl. apply Qmake_Qdiv.
Qed.

(** [Qfloor_log2] brackets its argument. *)
Lemma Qfloor_log2_spec (q : Q) :
  ~ q == 0 ->
  Qpower 2 (Qfloor_log2 q) <= Qabs q /\ Qabs q < Qpower 2 (Qfloor_log2 q + 1).
Proof.
  intro Hq.
  set (n := Z.abs (Qnum q)). set (d := Zpos (Qden q)).
  assert (Hn : (0 < n)%Z).
  { unfold n. destruct q as [[| p | p] dq]; simpl; try lia.
    exfalso. apply Hq. reflexivity. }
  assert (Hd : (0 < d)%Z) by (unfold d; lia).
  destruct (Z.log2_spec n Hn) as [Ha1 Ha2].
  destruct (Z.log2_spec d Hd) as [Hb1 Hb2].
  pose proof (Z.log2_nonneg n) as Ha0. pose proof (Z.log2_nonneg d) as Hb0.
  set (a := Z.log2 n) in *. set (b := Z.log2 d) in *.
  assert (Habs : Qabs q == inject_Z n / inject_Z d) by apply Qabs_Qmake.
  assert (Hdq : 0 < inject_Z d) by (change 0 with (inject_Z 0); rewrite <- Zlt_Qlt; exact Hd).
  assert (Hlow : Qpower 2 (a - b - 1) <= Qabs q).
  { rewrite Habs. apply Qle_shift_div_l; [exact Hdq |].
    replace (a - b - 1)%Z with (a + - (b + 1))%Z by lia.
    rewrite Qpower_2_plus, Qpower_opp, (Qpower_2_Z a), (Qpower_2_Z (b + 1)) by lia.
    assert (Hpb : 0 < inject_Z (2 ^ (b + 1))).
    { change 0 with (inject_Z 0). rewrite <- Zlt_Qlt. apply Z.pow_pos_nonneg; lia. }
    setoid_replace (inject_Z (2 ^ a) * / inject_Z (2 ^ (b + 1)) * inject_Z d)
      with ((inject_Z (2 ^ a) * inject_Z d) / inject_Z (2 ^ (b + 1)))
      by (field; lra).
    apply Qle_shift_div_r; [exact Hpb |].
    rewrite <- !inject_Z_mult, <- Zle_Qle.
    replace (Z.succ b) with (b + 1)%Z in Hb2 by lia. nia. }
  assert (Hhigh : Qabs q < Qpower 2 (a - b + 1)).
  { rewrite Habs. apply Qlt_shift_div_r; [exact Hdq |].
    replace (a - b + 1)%Z with ((a + 1) + - b)%Z by lia.
    rewrite Qpower_2_plus, Qpower_opp, (Qpower_2_Z (a + 1)), (Qpower_2_Z b) by lia.
    assert (Hpb : 0 < inject_Z (2 ^ b)).
    { change 0 with (inject_Z 0). rewrite <- Zlt_Qlt. apply Z.pow_pos_nonneg; lia. }
    setoid_replace (inject_Z (2 ^ (a + 1)) * / inject_Z (2 ^ b) * inject_Z d)
      with ((inject_Z (2 ^ (a + 1)) * inject_Z d) / inject_Z (2 ^ b))
      by (field; lra).
    apply Qlt_shift_div_l; [exact Hpb |].
    rewrite <- !inject_Z_mult, <- Zlt_Qlt.
    replace (Z.succ a) with (a + 1)%Z in Ha2 by lia. nia. }
  unfold Qfloor_log2. fold n. fold d. fold a. fold b.
  destruct (Qle_bool (Qpower 2 (a - b)) (Qabs q)) eqn:E.
  - apply Qle_bool_iff in E. split; [exact E | exact Hhigh].
  - split.
    + exact Hlow.
    + replace (a - b - 1 + 1)%Z with (a - b)%Z by lia.
      apply Qnot_le_lt. intro Hle. apply Qle_bool_iff in Hle. congruence.
Qed.
(** Rounding to an integer stays within integer bounds. *)
Lemma round_half_even_le (y : Q) (N : Z) : y <= inject_Z N -> (round_half_even y <= N)%Z.
Proof.
  intro H.
  assert (Hf : (Qfloor y <= N)%Z).
  { rewrite <- (Qfloor_Z N). apply Qfloor_resp_le. exact H. }
  destruct (Z.eq_dec (Qfloor y) N) as [E | Hne].
  - unfold round_half_even. rewrite E.
    assert (Hy : inject_Z N <= y) by (rewrite <- E; apply Qfloor_le).
    assert (Hc : Qcompare (y - inject_Z N) (1 # 2) = Lt).
    { rewrite <- Qlt_alt. lra. }
    rewrite Hc. lia.
  - destruct (round_half_even_cases y) as [-> | ->]; lia.
Qed.

Lemma round_half_even_ge (y : Q) (N : Z) : inject_Z N <= y -> (N <= round_half_even y)%Z.
Proof.
  intro H.
  assert (Hf : (N <= Qfloor y)%Z).
  { rewrite <- (Qfloor_Z N). apply Qfloor_resp_le. exact H. }
  destruct (round_half_even_cases y) as [-> | ->]; lia.
Qed.

Lemma round_half_even_near (y : Q) :
  Qabs (inject_Z (round_half_even y) - y) <= 1 # 2.
Proof.
  pose proof (Qfloor_le y) as Hf1. pose proof (Qlt_floor y) as Hf2.
  rewrite inject_Z_plus in Hf2. change (inject_Z 1) with 1 in Hf2.
  unfold round_half_even.
  destruct (Qcompare (y - inject_Z (Qfloor y)) (1 # 2)) eqn:E.
  - apply Qeq_alt in E.
    destruct (Z.even (Qfloor y));
      [| rewrite inject_Z_plus; change (inject_Z 1) with 1];
      apply Qabs_Qle_condition; split; lra.
  - apply Qlt_alt in E. apply Qabs_Qle_condition; split; lra.
  - apply Qgt_alt in E. rewrite inject_Z_plus. change (inject_Z 1) with 1.
    apply Qabs_Qle_condition; split; lra.
Qed.

Lemma Qabs_le_iff (x y : Q) : Qabs x <= y <-> - y <= x /\ x <= y.
Proof.
  apply Qabs_Qle_condition.
Qed.

(** The value [round_double] returns, for a nonzero argument. *)
Lemma round_double_nonzero (x : Q) :
  ~ x == 0 ->
  exists e : Z,
    e = Z.max (Qfloor_log2 (Qred x) - 52) (-1074) /\
    round_double x == inject_Z (round_half_even (x / Qpower 2 e)) * Qpower 2 e.
Proof.
  intro Hx. unfold round_double.
  assert (E : Qeq_bool (Qred x) 0 = false).
  { apply Qeq_bool_false. rewrite Qred_correct. exact Hx. }
  rewrite E. exists (Z.max (Qfloor_log2 (Qred x) - 52) (-1074)). split; [reflexivity |].
  set (e := Z.max (Qfloor_log2 (Qred x) - 52) (-1074)).
  rewrite Qred_correct.
  assert (Hq : Qred x / Qpower 2 e == x / Qpower 2 e).
  { unfold Qdiv. apply Qmult_comp; [apply Qred_correct | reflexivity]. }
  assert (Hr : round_half_even (Qred x / Qpower 2 e) = round_half_even (x / Qpower 2 e)).
  { unfold round_half_even. rewrite (Qfloor_comp _ _ Hq).
    assert (Hc : Qcompare (Qred x / Qpower 2 e - inject_Z (Qfloor (x / Qpower 2 e))) (1 # 2)
                 = Qcompare (x / Qpower 2 e - inject_Z (Qfloor (x / Qpower 2 e))) (1 # 2)).
    { apply Qcompare_comp; [| reflexivity]. rewrite Hq. reflexivity. }
    rewrite Hc. reflexivity. }
  rewrite Hr. reflexivity.
Qed.

Lemma scaled_bound (x N : Q) (e : Z) :
  Qabs x <= N * Qpower 2 e -> Qabs (x / Qpower 2 e) <= N.
Proof.
  intro H. pose proof (Qpower_2_pos e) as Hp.
  apply Qabs_le_iff in H. destruct H as [H1 H2].
  apply Qabs_le_iff. split.
  - apply Qle_shift_div_l; [exact Hp | lra].
  - apply Qle_shift_div_r; [exact Hp | lra].
Qed.

Lemma round_scaled_bound (x : Q) (N e : Z) :
  Qabs x <= inject_Z N * Qpower 2 e ->
  Qabs (inject_Z (round_half_even (x / Qpower 2 e)) * Qpower 2 e)
    <= inject_Z N * Qpower 2 e.
Proof.
  intro H. pose proof (Qpower_2_pos e) as Hp.
  apply scaled_bound in H. apply Qabs_le_iff in H. destruct H as [H1 H2].
  rewrite <- inject_Z_opp in H1.
  apply round_half_even_ge in H1. apply round_half_even_le in H2.
  rewrite Zle_Qle in H1, H2. rewrite inject_Z_opp in H1.
  apply Qabs_le_iff. split.
  - setoid_replace (- (inject_Z N * Qpower 2 e)) with ((- inject_Z N) * Qpower 2 e) by ring.
    apply Qmult_le_compat_r; [exact H1 | lra].
  - apply Qmult_le_compat_r; [exact H2 | lra].
Qed.

(** Rounding does not overflow what is within range. *)
Lemma round_double_bounded (x : Q) :
  Qabs x <= double_max -> Qabs (round_double x) <= double_max.
Proof.
  intro H.
  destruct (Qeq_dec x 0) as [E | Hx].
  - rewrite (round_double_compat _ _ E). vm_compute. discriminate.
  - destruct (round_double_nonzero x Hx) as (e & He & ->).
    assert (Hq : ~ Qred x == 0) by (rewrite Qred_correct; exact Hx).
    destruct (Qfloor_log2_spec (Qred x) Hq) as [Hlo Hhi].
    assert (Habs : Qabs (Qred x) == Qabs x) by (rewrite Qred_correct; reflexivity).
    rewrite Habs in Hlo, Hhi.
    set (L := Qfloor_log2 (Qred x)) in *.
    assert (Hmax : double_max == inject_Z (2 ^ 53 - 1) * Qpower 2 971)
      by (vm_compute; reflexivity).
    assert (HL : (L <= 1023)%Z).
    { destruct (Z_le_gt_dec L 1023) as [Hle | Hgt]; [exact Hle | exfalso].
      assert (H1024 : Qpower 2 1024 <= Qpower 2 L) by (apply Qpower_2_le; lia).
      assert (Hlt : double_max < Qpower 2 1024) by (vm_compute; reflexivity).
      lra. }
    destruct (Z_le_gt_dec e 970) as [Hsmall | Hbig].
    + (* at most 2^53 units of 2^e, and 2^53 * 2^e <= 2^1023 *)
      assert (Hx53 : Qabs x <= inject_Z (2 ^ 53) * Qpower 2 e).
      { rewrite <- (Qpower_2_Z 53) by lia. rewrite <- Qpower_2_plus.
        apply Qlt_le_weak. eapply Qlt_le_trans; [exact Hhi |].
        apply Qpower_2_le. lia. }
      eapply Qle_trans; [apply round_scaled_bound; exact Hx53 |].
      rewrite <- (Qpower_2_Z 53) by lia. rewrite <- Qpower_2_plus.
      eapply Qle_trans; [apply (Qpower_2_le _ 1023); lia |].
      vm_compute. discriminate.
    + assert (Ee : e = 971%Z) by lia.
      rewrite Ee. rewrite Hmax. apply round_scaled_bound. rewrite <- Hmax. exact H.
Qed.

(** What rounds to zero is below the smallest double. *)
Lemma round_double_zero (x : Q) : round_double x == 0 -> Qabs x < Qpower 2 (-1074).
Proof.
  intro H.
  destruct (Qeq_dec x 0) as [E | Hx].
  - rewrite E. apply Qpower_2_pos.
  - destruct (round_double_nonzero x Hx) as (e & He & Hr).
    rewrite Hr in H.
    pose proof (Qpower_2_pos e) as Hp.
    assert (Hz : round_half_even (x / Qpower 2 e) = 0%Z).
    { assert (Hi : inject_Z (round_half_even (x / Qpower 2 e)) == 0).
      { destruct (Qmult_integral _ _ H) as [Hi | Hi]; [exact Hi | lra]. }
      change 0 with (inject_Z 0) in Hi. apply (proj1 (inject_Z_injective _ _)) in Hi. exact Hi. }
    assert (Hlt : Qabs (x / Qpower 2 e) < 1).
    { pose proof (round_half_even_near (x / Qpower 2 e)) as Hn.
      rewrite Hz in Hn. change (inject_Z 0) with 0 in Hn.
      apply Qabs_Qle_condition in Hn. destruct Hn as [Hn1 Hn2].
      apply Qabs_case; intro; lra. }
    assert (Hxe : Qabs x < Qpower 2 e).
    { assert (Hd : Qabs (x / Qpower 2 e) == Qabs x / Qpower 2 e).
      { unfold Qdiv. rewrite Qabs_Qmult.
        rewrite (Qabs_pos (/ Qpower 2 e)); [reflexivity |].
        apply Qlt_le_weak, Qinv_lt_0_compat, Hp. }
      rewrite Hd in Hlt.
      apply (Qmult_lt_compat_r _ _ (Qpower 2 e) Hp) in Hlt.
      setoid_replace (Qabs x / Qpower 2 e * Qpower 2 e) with (Qabs x) in Hlt
        by (field; lra).
      lra. }
    assert (Hq : ~ Qred x == 0) by (rewrite Qred_correct; exact Hx).
    destruct (Qfloor_log2_spec (Qred x) Hq) as [Hlo _].
    assert (Habs : Qabs (Qred x) == Qabs x) by (rewrite Qred_correct; reflexivity).
    rewrite Habs in Hlo.
    destruct (Z.max_spec (Qfloor_log2 (Qred x) - 52) (-1074)) as [[_ Em] | [_ Em]];
      rewrite Em in He; subst e.
    + exact Hxe.
    + exfalso.
      assert (Hle : Qpower 2 (Qfloor_log2 (Qred x) - 52) <= Qpower 2 (Qfloor_log2 (Qred x)))
        by (apply Qpower_2_le; lia).
      lra.
Qed.

(** A double is a multiple of the smallest double. *)
Lemma representable_multiple (c : Q) :
  representable c -> exists n : Z, c == inject_Z n * Qpower 2 (-1074).
Proof.
  intro H. unfold representable in H.
  destruct (Qeq_dec c 0) as [E | Hc].
  - exists 0%Z. rewrite E. ring.
  - destruct (round_double_nonzero c Hc) as (e & He & Hr).
    rewrite Hr in H.
    exists (round_half_even (c / Qpower 2 e) * 2 ^ (e + 1074))%Z.
    rewrite <- H at 1.
    rewrite inject_Z_mult, <- (Qpower_2_Z (e + 1074)) by lia.
    rewrite <- Qmult_assoc, <- Qpower_2_plus.
    replace (e + 1074 + -1074)%Z with e by lia. reflexivity.
Qed.

(** A sum of two doubles rounds to zero only when it is zero. *)
Lemma fl_add_zero (a b : Q) :
  representable a -> representable b -> fl_add a b == 0 -> a + b == 0.
Proof.
  intros Ha Hb H.
  destruct (representable_multiple a Ha) as [n Hn].
  destruct (representable_multiple b Hb) as [m Hm].
  apply round_double_zero in H.
  pose proof (Qpower_2_pos (-1074)) as Hp.
  assert (Hs : a + b == inject_Z (n + m) * Qpower 2 (-1074)).
  { rewrite Hn, Hm, inject_Z_plus. ring. }
  rewrite Hs in H. rewrite Hs.
  rewrite Qabs_Qmult, (Qabs_pos (Qpower 2 (-1074))) in H by lra.
  assert (H1 : Qabs (inject_Z (n + m)) < 1).
  { apply (Qmult_lt_r _ _ (Qpower 2 (-1074)) Hp). lra. }
  assert (Hz : (n + m = 0)%Z).
  { apply Qabs_Qlt_condition in H1. destruct H1 as [H1 H2].
    change 1 with (inject_Z 1) in H1, H2. rewrite <- inject_Z_opp in H1.
    rewrite <- Zlt_Qlt in H1, H2. simpl in H1. lia. }
  rewrite Hz. ring.
Qed.

(** ** The loader *)

(** What a call returns is what it leaves in the globals. *)
Lemma get_model_and_metadata_globals (env : Env) (st : State) :
  forall m md st1,
    get_model_and_metadata env st = (m, md, st1) ->
    MODEL st1 = m /\ METADATA st1 = md.
Proof.
  intros m md st1. unfold get_model_and_metadata.
  destruct (MODEL st) eqn:EM; destruct (METADATA st) eqn:ED;
    try destruct (try_load_model env) as [m' md'];
    intro H; inversion H; subst; simpl; auto.
Qed.

Lemma get_model_and_metadata_loaded (env : Env) (st : State) (m : Model) (md : Metadata) :
  MODEL st = Some m -> METADATA st = Some md ->
  get_model_and_metadata env st = (Some m, Some md, st).
Proof.
  intros EM ED. unfold get_model_and_metadata. rewrite EM, ED. reflexivity.
Qed.

Lemma get_model_and_metadata_reload (env : Env) (st : State) :
  MODEL st = None \/ METADATA st = None ->
  get_model_and_metadata env st =
    (fst (try_load_model env), snd (try_load_model env),
     {| MODEL := fst (try_load_model env);
        METADATA := snd (try_load_model env);
        load_calls := S (load_calls st) |}).
Proof.
  intros H. unfold get_model_and_metadata.
  destruct (try_load_model env) as [m' md'].
  destruct H as [H | H]; rewrite H; [| destruct (MODEL st)]; reflexivity.
Qed.

Lemma run_calls_loaded (envs : list Env) (st : State) (m : Model) (md : Metadata) :
  MODEL st = Some m -> METADATA st = Some md -> run_calls envs st = st.
Proof.
  intros EM ED. induction envs as [| env envs IH]; simpl; [reflexivity |].
  rewrite (get_model_and_metadata_loaded env st m md EM ED). exact IH.
Qed.

(** C2, as stated, fails: after a call that found the model absent, the
    next call runs the load sequence again, and returns a model stored in
    the meantime. *)
Lemma absent_result_is_not_cached :
  let later := loaded_env (constant_model 0) in
  let '(m1, _, st1) := get_model_and_metadata empty_env initial_state in
  let '(m2, _, st2) := get_model_and_metadata later st1 in
  m1 = None /\ load_calls st1 = 1%nat /\
  m2 = Some (constant_model 0) /\ load_calls st2 = 2%nat.
Proof.
  cbv. repeat split.
Qed.

(** C2 (amended): once a call has returned both a model and metadata,
    that pair is cached for the rest of the process: later calls return
    it without invoking the load sequence, whatever the files hold by
    then.  While either of the two is absent, every call invokes the
    load sequence again. *)
Theorem loaded_pair_is_cached :
  forall (env : Env) (st st1 : State) (model : option Model) (metadata : option Metadata),
    get_model_and_metadata env st = (model, metadata, st1) ->
    (forall m md, model = Some m -> metadata = Some md ->
       forall (envs : list Env) (env' : Env),
         run_calls envs st1 = st1 /\
         get_model_and_metadata env' (run_calls envs st1) = (Some m, Some md, st1) /\
         snd (health env' st1) = st1 /\
         (forall expm1 COGS req, snd (predict expm1 COGS env' st1 req) = st1) /\
         (forall expm1 COGS req min_price max_price step,
            snd (optimize expm1 COGS env' st1 req min_price max_price step) = st1)) /\
    (model = None \/ metadata = None ->
       forall env' : Env,
         get_model_and_metadata env' st1 =
           (fst (try_load_model env'), snd (try_load_model env'),
            {| MODEL := fst (try_load_model env');
               METADATA := snd (try_load_model env');
               load_calls := S (load_calls st1) |})).
Proof.
  intros env st st1 model metadata H.
  destruct (get_model_and_metadata_globals env st _ _ _ H) as [EM ED].
  split.
  - intros m md -> -> envs env'.
    rewrite (run_calls_loaded envs st1 m md EM ED).
    pose proof (get_model_and_metadata_loaded env' st1 m md EM ED) as Hget.
    repeat apply conj; [reflexivity | exact Hget | | |].
    + unfold health. rewrite Hget. reflexivity.
    + intros. unfold predict. rewrite Hget. reflexivity.
    + intros. unfold optimize. rewrite Hget. reflexivity.
  - intros Habs env'. apply get_model_and_metadata_reload.
    rewrite EM, ED. exact Habs.
Qed.

Lemma loaded_pair_is_cached_witness :
  let env := loaded_env (constant_model 0) in
  let st1 := snd (get_model_and_metadata env initial_state) in
  (run_calls [empty_env; empty_env] st1 = st1 /\
   get_model_and_metadata empty_env (run_calls [empty_env; empty_env] st1) =
     (Some (constant_model 0), Some {| num_cols := None; cat_cols := None |}, st1)) /\
  load_calls (snd (get_model_and_metadata env
                     (snd (get_model_and_metadata empty_env initial_state)))) = 2%nat.
Proof.
  split.
  - destruct (proj1 (loaded_pair_is_cached (loaded_env (constant_model 0)) initial_state
                       _ _ _ eq_refl) _ _ eq_refl eq_refl [empty_env; empty_env] empty_env)
      as (Hrun & Hget & _).
    split; [exact Hrun | exact Hget].
  - rewrite (proj2 (loaded_pair_is_cached empty_env initial_state _ _ _ eq_refl)
               (or_introl eq_refl)).
    reflexivity.
Defined.

(** ** Unavailability *)

Lemma missing_artifact_gives_no_model (env : Env) (st : State) :
  MODEL st = None ->
  model_file env = Missing \/ model_file env = Unreadable ->
  fst (fst (get_model_and_metadata env st)) = None.
Proof.
  intros EM Hfile. unfold get_model_and_metadata, try_load_model. rewrite EM.
  destruct Hfile as [-> | ->]; [destruct (metadata_file env) |]; reflexivity.
Qed.

(** C8: when the loader yields no model, [predict] and [optimize] both
    raise the HTTP exception with status 503, "Model not loaded", for
    every request and range: nothing is computed from the request (no
    features, no fallback body), and no other exception escapes. *)
Theorem model_absent_is_503 :
  forall (expm1 : Q -> Q) (COGS : Q) (env : Env) (st : State)
         (req : PredictRequest) (min_price max_price step : Q),
    fst (fst (get_model_and_metadata env st)) = None ->
    predict expm1 COGS env st req =
      (HTTPException 503 "Model not loaded", snd (get_model_and_metadata env st)) /\
    optimize expm1 COGS env st req min_price max_price step =
      (HTTPException 503 "Model not loaded", snd (get_model_and_metadata env st)) /\
    (forall body, fst (predict expm1 COGS env st req) <> Response200 body) /\
    (forall body,
       fst (optimize expm1 COGS env st req min_price max_price step) <> Response200 body) /\
    (forall e, fst (predict expm1 COGS env st req) <> Unhandled e) /\
    (forall e,
       fst (optimize expm1 COGS env st req min_price max_price step) <> Unhandled e).
Proof.
  intros expm1 COGS env st req min_price max_price step H.
  unfold predict, optimize.
  destruct (get_model_and_metadata env st) as [[model md] st'].
  simpl in H. subst model. simpl.
  repeat split; intros; discriminate.
Qed.

Lemma model_absent_is_503_witness :
  make_input_df initial_state (req_dict zero_denominator_request) = Raise ZeroDivisionError /\
  predict expm1_stub 50 empty_env initial_state zero_denominator_request =
    (HTTPException 503 "Model not loaded",
     {| MODEL := None; METADATA := None; load_calls := 1 |}) /\
  optimize expm1_stub 50 empty_env initial_state zero_denominator_request 3 1 0 =
    (HTTPException 503 "Model not loaded",
     {| MODEL := None; METADATA := None; load_calls := 1 |}).
Proof.
  split; [reflexivity |].
  pose proof (model_absent_is_503 expm1_stub 50 empty_env initial_state
                zero_denominator_request 3 1 0
                (missing_artifact_gives_no_model empty_env initial_state
                   eq_refl (or_introl eq_refl))) as H.
  split; [exact (proj1 H) | exact (proj1 (proj2 H))].
Defined.

(** ** Non-negative quantities and profits *)

Lemma py_max_nonneg (x : Q) : 0 <= py_max 0 x.
Proof.
  unfold py_max. case_Qltb 0 x; lra.
Qed.

Lemma py_max_Qmax (a b : Q) : py_max a b == Qmax a b.
Proof.
  unfold py_max. case_Qltb a b.
  - symmetry. apply Q.max_r. lra.
  - symmetry. apply Q.max_l. exact E.
Qed.

Lemma np_clip_lower_nonneg (a : list Q) : Forall (Qle 0) (np_clip_lower a 0).
Proof.
  unfold np_clip_lower. induction a as [| x a IH]; simpl; constructor; auto.
  case_Qltb x 0; lra.
Qed.

Lemma np_where_profit_nonneg (margins qtys : list Q) :
  Forall (Qle 0) qtys -> Forall (Qle 0) (np_where_profit margins qtys).
Proof.
  intros Hq. unfold np_where_profit. apply Forall_forall. intros x Hx.
  apply in_map_iff in Hx. destruct Hx as [[mg q] [<- Hin]]. simpl.
  apply in_combine_r in Hin. rewrite Forall_forall in Hq. specialize (Hq q Hin).
  case_Qltb 0 mg; [| lra].
  apply Qmult_le_0_compat; lra.
Qed.

Lemma py_index_In {A : Type} (l : list A) (i : nat) (x : A) :
  py_index l i = Ok x -> In x l.
Proof.
  unfold py_index. destruct (nth_error l i) eqn:E; [| discriminate].
  intro H. inversion H; subst. eapply nth_error_In; eassumption.
Qed.

Lemma py_index_nth {A : Type} (l : list A) (i : nat) (x : A) :
  py_index l i = Ok x <-> nth_error l i = Some x.
Proof.
  unfold py_index. destruct (nth_error l i); split; intro H; inversion H; reflexivity.
Qed.

Lemma bind_Ok {A B : Type} (r : result A) (k : A -> result B) (b : B) :
  bind r k = Ok b -> exists a, r = Ok a /\ k a = Ok b.
Proof.
  destruct r as [a | e]; simpl; [eauto | discriminate].
Qed.

Ltac bind_inv H :=
  repeat match type of H with
  | bind _ _ = Ok _ =>
      let a := fresh "a" in
      let Ha := fresh "Ha" in
      apply bind_Ok in H; destruct H as [a [Ha H]]
  end.

Section NonNegative.

Variable expm1 : Q -> Q.
Variable COGS : Q.

Lemma optimize_qtys_nonneg (m : Model) (df : DataFrame) :
  Forall (Qle 0) (optimize_qtys expm1 m df).
Proof.
  apply np_clip_lower_nonneg.
Qed.

Lemma optimize_profits_nonneg (m : Model) (df : DataFrame) (profits : list Q) :
  optimize_profits expm1 COGS m df = Ok profits -> Forall (Qle 0) profits.
Proof.
  unfold optimize_profits. intro H. bind_inv H. inversion H; subst.
  apply np_where_profit_nonneg, optimize_qtys_nonneg.
Qed.

Lemma optimize_select_nonneg (m : Model) (prices : list Q) (df : DataFrame)
    (r : OptimizationResult) :
  optimize_select expm1 COGS m prices df = Ok r ->
  0 <= best_qty r /\ 0 <= best_profit r.
Proof.
  unfold optimize_select. intro H.
  apply bind_Ok in H. destruct H as [profits [Hprofits H]].
  apply bind_Ok in H. destruct H as [best_idx [_ H]].
  apply bind_Ok in H. destruct H as [bprice [_ H]].
  apply bind_Ok in H. destruct H as [bprofit [Hbprofit H]].
  apply bind_Ok in H. destruct H as [bqty [Hbqty H]].
  inversion H; subst. simpl. split.
  - pose proof (optimize_qtys_nonneg m df) as Hq.
    rewrite Forall_forall in Hq. apply Hq. eapply py_index_In; eassumption.
  - pose proof (optimize_profits_nonneg m df _ Hprofits) as Hp.
    rewrite Forall_forall in Hp. apply Hp. eapply py_index_In; eassumption.
Qed.

End NonNegative.

(** ** Ratio features *)

(** Evaluation of dictionary operations on a dictionary with literal keys. *)
Ltac dict_eval :=
  cbn [req_dict dict_set dict_getitem dict_get dict_get_default float_item
       String.eqb Ascii.eqb Bool.eqb bind as_float app].

Lemma add_price_ratios_req (req : PredictRequest) :
  ~ comp_1 req + eps_ratio == 0 ->
  ~ comp_2 req + eps_ratio == 0 ->
  ~ comp_3 req + eps_ratio == 0 ->
  add_price_ratios (req_dict req) =
    Ok (req_dict req ++
        ratio_columns (fun den => PyFloat (unit_price req / den)) req)%list.
Proof.
  intros H1 H2 H3.
  apply Qeq_bool_false in H1, H2, H3.
  unfold add_price_ratios, price_ratio, py_truediv, ratio_columns.
  dict_eval. rewrite H1. dict_eval. rewrite H2. dict_eval. rewrite H3. dict_eval.
  reflexivity.
Qed.

(** No exception in the optimizer's loop: numpy divides. *)
Lemma candidate_row_req (req : PredictRequest) (p : Q) :
  candidate_row (req_dict req) p =
    Ok ([ ("unit_price", PyFloat p);
          ("comp_1", PyFloat (comp_1 req));
          ("comp_2", PyFloat (comp_2 req));
          ("comp_3", PyFloat (comp_3 req));
          ("freight_price", PyFloat (freight_price req));
          ("product_category_name", py_optional_str (product_category_name req)) ]
        ++ ratio_columns (np_truediv p) req)%list.
Proof.
  unfold candidate_row, ratio_columns. dict_eval. reflexivity.
Qed.

Lemma np_truediv_nonzero (a b : Q) : ~ b == 0 -> np_truediv a b = PyFloat (a / b).
Proof.
  intro H. apply Qeq_bool_false in H. unfold np_truediv. rewrite H. reflexivity.
Qed.

Lemma denominator_nonzero (c : Q) : ~ c == - eps_ratio -> ~ c + eps_ratio == 0.
Proof.
  intros H E. apply H. lra.
Qed.

Lemma nonneg_is_not_minus_eps (c : Q) : 0 <= c -> ~ c == - eps_ratio.
Proof.
  unfold eps_ratio. intros H E. rewrite E in H. revert H. apply Qlt_not_le. reflexivity.
Qed.

Lemma eps_ratio_double_representable : representable eps_ratio_double.
Proof.
  vm_compute. reflexivity.
Qed.

Lemma price_ratio_double_nonzero (u c : Q) :
  ~ fl_add c eps_ratio_double == 0 ->
  price_ratio_double u c = Ok (float_quotient u (fl_add c eps_ratio_double)).
Proof.
  intro H. apply Qeq_bool_false in H.
  unfold price_ratio_double, py_truediv_double. rewrite H. reflexivity.
Qed.

Lemma double_denominator_nonzero (c : Q) :
  representable c -> ~ c == - eps_ratio_double -> ~ fl_add c eps_ratio_double == 0.
Proof.
  intros Hc Hne H. apply Hne.
  apply (fl_add_zero _ _ Hc eps_ratio_double_representable) in H. lra.
Qed.

Lemma zero_competitor_denominator (c : Q) :
  c == 0 -> fl_add c eps_ratio_double = eps_ratio_double.
Proof.
  intro E. unfold fl_add.
  rewrite (round_double_compat (c + eps_ratio_double) eps_ratio_double)
    by (rewrite E; ring).
  vm_compute. reflexivity.
Qed.

Lemma float_quotient_finite (a b : Q) :
  Qabs (a / b) <= double_max ->
  float_quotient a b = PyFloat (fl_div a b) /\ Qabs (fl_div a b) <= double_max.
Proof.
  intro H. apply round_double_bounded in H. fold (fl_div a b) in H.
  unfold float_quotient. pose proof H as Hb. apply Qle_bool_iff in Hb.
  rewrite Hb. split; [reflexivity | exact H].
Qed.

(** C3, as stated, fails twice.  A competitor price of [-1e-6] is a
    float the request schema accepts; its denominator is exactly zero,
    [make_input_df] raises [ZeroDivisionError], [predict] lets it escape,
    and the optimizer's numpy division yields infinity: shown first on
    the handlers, where [1e-6] is the decimal fraction, then on the
    ratios in float arithmetic, where it is the double.  And with a
    competitor price of 0 the ratio [unit_price / 1e-6] is not finite
    for a unit price of [1e308]: the quotient overflows to [inf]. *)
Lemma ratio_denominator_can_be_zero :
  (comp_1 zero_denominator_request + eps_ratio == 0 /\
   make_input_df initial_state (req_dict zero_denominator_request) =
     Raise ZeroDivisionError /\
   fst (predict expm1_stub 50 (loaded_env (constant_model 0)) initial_state
          zero_denominator_request) = Unhandled ZeroDivisionError /\
   (let* row := candidate_row (req_dict zero_denominator_request) 100 in
    dict_getitem "price_ratio_comp1" row) = Ok (PyInf false)) /\
  (representable (- eps_ratio_double) /\
   fl_add (- eps_ratio_double) eps_ratio_double == 0 /\
   price_ratios_double
     {| unit_price := 100; comp_1 := - eps_ratio_double; comp_2 := 95; comp_3 := 105;
        freight_price := 10; product_category_name := None |}
     = Raise ZeroDivisionError /\
   np_truediv_double 100 (fl_add (- eps_ratio_double) eps_ratio_double) = PyInf false) /\
  (representable (round_double (10 ^ 308)) /\
   fl_add 0 eps_ratio_double = eps_ratio_double /\
   price_ratio_double (round_double (10 ^ 308)) 0 = Ok (PyInf false)).
Proof.
  repeat split; vm_compute; reflexivity.
Qed.

(** C3 (amended): for every request whose competitor prices are floats
    other than [-1e-6], each denominator [comp_i + 1e-6], as float
    addition computes it, is nonzero, and the ratio computation does not
    raise: each ratio is the float quotient
    [unit_price / (comp_i + 1e-6)], which is [inf] when it overflows;
    the optimizer's numpy division by the same denominators is the
    float quotient as well.
    For [comp_i = 0] the denominator is [1e-6] and the ratio is
    [unit_price / 1e-6]; it is a finite value whenever [unit_price] is
    at most [1e-6] times the largest double in magnitude. *)
Theorem ratios_are_epsilon_guarded :
  forall req : PredictRequest,
    representable (comp_1 req) ->
    representable (comp_2 req) ->
    representable (comp_3 req) ->
    ~ comp_1 req == - eps_ratio_double ->
    ~ comp_2 req == - eps_ratio_double ->
    ~ comp_3 req == - eps_ratio_double ->
    (~ fl_add (comp_1 req) eps_ratio_double == 0 /\
     ~ fl_add (comp_2 req) eps_ratio_double == 0 /\
     ~ fl_add (comp_3 req) eps_ratio_double == 0) /\
    price_ratios_double req =
      Ok (float_quotient (unit_price req) (fl_add (comp_1 req) eps_ratio_double),
          float_quotient (unit_price req) (fl_add (comp_2 req) eps_ratio_double),
          float_quotient (unit_price req) (fl_add (comp_3 req) eps_ratio_double)) /\
    (forall p c, In c [comp_1 req; comp_2 req; comp_3 req] ->
       np_truediv_double p (fl_add c eps_ratio_double) =
         float_quotient p (fl_add c eps_ratio_double)) /\
    (forall c, In c [comp_1 req; comp_2 req; comp_3 req] -> c == 0 ->
       fl_add c eps_ratio_double = eps_ratio_double /\
       price_ratio_double (unit_price req) c =
         Ok (float_quotient (unit_price req) eps_ratio_double) /\
       (Qabs (unit_price req) <= double_max * eps_ratio_double ->
          float_quotient (unit_price req) eps_ratio_double =
            PyFloat (fl_div (unit_price req) eps_ratio_double) /\
          Qabs (fl_div (unit_price req) eps_ratio_double) <= double_max)).
Proof.
  intros req R1 R2 R3 H1 H2 H3.
  pose proof (double_denominator_nonzero _ R1 H1) as D1.
  pose proof (double_denominator_nonzero _ R2 H2) as D2.
  pose proof (double_denominator_nonzero _ R3 H3) as D3.
  split; [auto |]. split; [| split].
  - unfold price_ratios_double.
    rewrite !price_ratio_double_nonzero by assumption. reflexivity.
  - intros p c Hc. unfold np_truediv_double.
    assert (Hd : Qeq_bool (fl_add c eps_ratio_double) 0 = false).
    { apply Qeq_bool_false.
      destruct Hc as [<- | [<- | [<- | []]]]; assumption. }
    rewrite Hd. reflexivity.
  - intros c Hc E.
    pose proof (zero_competitor_denominator c E) as Hden.
    split; [exact Hden |]. split.
    + rewrite price_ratio_double_nonzero; rewrite Hden; [reflexivity |].
      vm_compute. discriminate.
    + intro Hu. apply float_quotient_finite.
      assert (Hpos : 0 < eps_ratio_double) by (vm_compute; reflexivity).
      assert (Hd : Qabs (unit_price req / eps_ratio_double)
                   == Qabs (unit_price req) / eps_ratio_double).
      { unfold Qdiv. rewrite Qabs_Qmult.
        rewrite (Qabs_pos (/ eps_ratio_double)); [reflexivity |].
        apply Qlt_le_weak, Qinv_lt_0_compat, Hpos. }
      rewrite Hd. apply Qle_shift_div_r; assumption.
Qed.

(** A request with a competitor price of 0: the ratio is [100 / 1e-6],
    the finite value [1e8]. *)
Lemma ratios_are_epsilon_guarded_witness :
  price_ratios_double zero_competitor_request =
    Ok (PyFloat 100000000,
        float_quotient 100 (fl_add 95 eps_ratio_double),
        float_quotient 100 (fl_add 105 eps_ratio_double)) /\
  float_quotient 100 eps_ratio_double = PyFloat (fl_div 100 eps_ratio_double) /\
  Qabs (fl_div 100 eps_ratio_double) <= double_max.
Proof.
  destruct (ratios_are_epsilon_guarded zero_competitor_request) as (_ & Hr & _ & Hz);
    try (vm_compute; reflexivity);
    try (intro H; vm_compute in H; discriminate).
  split.
  - rewrite Hr. vm_compute. reflexivity.
  - apply (Hz 0); [left; reflexivity | reflexivity | vm_compute; discriminate].
Defined.

(** ** Quantities and profits from the model's outputs *)

Lemma clip_is_py_max (x : Q) : (if Qltb x 0 then 0 else x) == py_max 0 x.
Proof.
  unfold py_max. case_Qltb x 0; case_Qltb 0 x; lra.
Qed.

Lemma np_where_profit_nth (margins qtys : list Q) (i : nat) (mg q : Q) :
  nth_error margins i = Some mg -> nth_error qtys i = Some q ->
  nth_error (np_where_profit margins qtys) i = Some (if Qltb 0 mg then mg * q else 0).
Proof.
  unfold np_where_profit. revert qtys i.
  induction margins as [| m0 margins IH]; intros qtys i Hm Hq.
  - destruct i; discriminate.
  - destruct qtys as [| q0 qtys]; [destruct i; discriminate |].
    destruct i as [| i]; simpl in *.
    + inversion Hm; inversion Hq; subst. reflexivity.
    + apply IH; assumption.
Qed.

Lemma make_input_df_one_row (st : State) (payload : dict) (df : DataFrame) :
  make_input_df st payload = Ok df -> exists row, df = [row].
Proof.
  unfold make_input_df.
  destruct (add_price_ratios payload) as [p | e]; [| discriminate].
  cbn [bind].
  destruct (METADATA st) as [md |]; [destruct (num_cols md) |];
    intro H; inversion H; eauto.
Qed.

Lemma np_clip_lower_nth (a : list Q) (j : nat) (x : Q) :
  nth_error a j = Some x ->
  nth_error (np_clip_lower a 0) j = Some (if Qltb x 0 then 0 else x).
Proof.
  intro H. unfold np_clip_lower. rewrite nth_error_map, H. reflexivity.
Qed.

Lemma optimize_qtys_model (expm1 : Q -> Q) (m : Model) (df : DataFrame) (j : nat)
    (log_pred : Q) :
  nth_error (model_predict m df) j = Some log_pred ->
  exists q,
    nth_error (optimize_qtys expm1 m df) j = Some q /\
    q == Qmax 0 (expm1 log_pred) /\ 0 <= q.
Proof.
  intro H. eexists. split.
  - unfold optimize_qtys. apply np_clip_lower_nth.
    rewrite nth_error_map, H. reflexivity.
  - split.
    + rewrite clip_is_py_max. apply py_max_Qmax.
    + rewrite clip_is_py_max. apply py_max_nonneg.
Qed.

(** C4, as stated, fails for a request the schema accepts: with a
    competitor price of [-1e-6] and a model loaded, [predict] raises in
    the feature builder, before the model is asked, and returns no
    quantity and no profit. *)
Lemma predict_returns_nothing_without_features :
  fst (predict expm1_stub 50 (loaded_env (constant_model 0)) initial_state
         zero_denominator_request) = Unhandled ZeroDivisionError /\
  (forall r,
     fst (predict expm1_stub 50 (loaded_env (constant_model 0)) initial_state
            zero_denominator_request) <> Response200 r).
Proof.
  split; [reflexivity | intros r H; discriminate H].
Qed.

(** C4 (amended): for every request for which [make_input_df] builds
    the feature frame, with [log_pred] the output of the loaded model
    on that frame, of any sign: [predict] returns
    [predicted_qty = max(0, expm1(log_pred))] and
    [predicted_profit = max(0, margin * qty)], both non-negative.  In
    [optimize], element [j] of the quantities is
    [max(0, expm1(log_preds[j]))]; element [j] of the profits is
    [margin_j * qty_j] where the margin is positive and 0 elsewhere;
    every element of both is non-negative, and so are the numbers of
    every body [predict] or [optimize] answers. *)
Theorem predicted_values_nonneg :
  forall (expm1 : Q -> Q) (COGS : Q),
    (forall env st req m df,
       fst (fst (get_model_and_metadata env st)) = Some m ->
       make_input_df (snd (get_model_and_metadata env st)) (req_dict req) = Ok df ->
       exists log_pred r,
         nth_error (model_predict m df) 0 = Some log_pred /\
         fst (predict expm1 COGS env st req) = Response200 r /\
         predicted_qty r == Qmax 0 (expm1 log_pred) /\
         predicted_profit r ==
           Qmax 0 ((unit_price req - COGS - freight_price req) * predicted_qty r) /\
         0 <= predicted_qty r /\ 0 <= predicted_profit r) /\
    (forall env st req,
       body_satisfies (fun r => 0 <= predicted_qty r /\ 0 <= predicted_profit r)
         (fst (predict expm1 COGS env st req))) /\
    (forall m df j log_pred,
       nth_error (model_predict m df) j = Some log_pred ->
       exists q,
         nth_error (optimize_qtys expm1 m df) j = Some q /\
         q == Qmax 0 (expm1 log_pred) /\ 0 <= q) /\
    (forall m df profits,
       optimize_profits expm1 COGS m df = Ok profits ->
       Forall (Qle 0) profits /\
       exists margins,
         optimize_margins COGS df = Ok margins /\
         forall j mg q,
           nth_error margins j = Some mg ->
           nth_error (optimize_qtys expm1 m df) j = Some q ->
           exists pr,
             nth_error profits j = Some pr /\
             (0 < mg -> pr = mg * q) /\ (mg <= 0 -> pr = 0)) /\
    (forall env st req min_price max_price step,
       body_satisfies (fun r => 0 <= best_qty r /\ 0 <= best_profit r)
         (fst (optimize expm1 COGS env st req min_price max_price step))) /\
    (forall max_alloc env st req min_price max_price step,
       body_satisfies (fun r => 0 <= best_qty r /\ 0 <= best_profit r)
         (fst (optimize_double expm1 COGS max_alloc env st req min_price max_price step))).
Proof.
  intros expm1 COGS. repeat apply conj.
  - intros env st req m df Hm Hdf.
    destruct (make_input_df_one_row _ _ _ Hdf) as [row ->].
    pose proof (model_predict_length m [row]) as Hlen.
    destruct (model_predict m [row]) as [| log_pred rest] eqn:Hp; [discriminate |].
    exists log_pred, (prediction_of expm1 COGS log_pred req).
    split; [reflexivity |]. split.
    + unfold predict.
      destruct (get_model_and_metadata env st) as [[model md] st'].
      simpl in Hm, Hdf. subst model. cbn [fst].
      unfold predict_body. rewrite Hdf. cbn [bind]. rewrite Hp. reflexivity.
    + simpl. repeat split; try apply py_max_Qmax; apply py_max_nonneg.
  - intros env st req. unfold predict.
    destruct (get_model_and_metadata env st) as [[[m |] md] st']; simpl; [| exact I].
    destruct (predict_body expm1 COGS st' m req) as [r | e] eqn:E; simpl; [| exact I].
    unfold predict_body in E. bind_inv E. inversion E; subst.
    simpl. split; apply py_max_nonneg.
  - intros m df j log_pred. apply optimize_qtys_model.
  - intros m df profits H. split; [eapply optimize_profits_nonneg; exact H |].
    unfold optimize_profits in H.
    destruct (optimize_margins COGS df) as [margins | e]; [| discriminate].
    cbn [bind] in H. inversion H; subst profits. clear H.
    exists margins. split; [reflexivity |].
    intros j mg q Hmg Hq. eexists. split; [apply np_where_profit_nth; eassumption |].
    split; intro Hs.
    + apply Qltb_lt in Hs. rewrite Hs. reflexivity.
    + apply Qltb_ge in Hs. rewrite Hs. reflexivity.
  - intros env st req min_price max_price step. unfold optimize.
    destruct (get_model_and_metadata env st) as [[[m |] md] st']; simpl; [| exact I].
    destruct (optimize_body expm1 COGS m req min_price max_price step) as [r | e] eqn:E;
      simpl; [| exact I].
    unfold optimize_body in E.
    apply bind_Ok in E. destruct E as [prices [_ E]].
    apply bind_Ok in E. destruct E as [df [_ E]].
    eapply optimize_select_nonneg; eassumption.
  - intros max_alloc env st req min_price max_price step. unfold optimize_double.
    destruct (get_model_and_metadata env st) as [[[m |] md] st']; simpl; [| exact I].
    destruct (optimize_body_double expm1 COGS max_alloc m req min_price max_price step)
      as [r | e] eqn:E; simpl; [| exact I].
    unfold optimize_body_double in E.
    apply bind_Ok in E. destruct E as [prices [_ E]].
    apply bind_Ok in E. destruct E as [df [_ E]].
    eapply optimize_select_nonneg; eassumption.
Qed.

(** A model whose output is negative: the quantity is clipped to zero. *)
Lemma predicted_values_nonneg_witness :
  (exists log_pred r,
     nth_error (model_predict (constant_model (-3))
                  [(req_dict sample_request ++
                    ratio_columns (fun den => PyFloat (100 / den)) sample_request)%list])
               0 = Some log_pred /\
     fst (predict expm1_stub 50 (loaded_env (constant_model (-3))) initial_state
            sample_request) = Response200 r /\
     predicted_qty r == Qmax 0 (expm1_stub log_pred) /\
     predicted_profit r ==
       Qmax 0 ((unit_price sample_request - 50 - freight_price sample_request)
               * predicted_qty r) /\
     0 <= predicted_qty r /\ 0 <= predicted_profit r) /\
  fst (predict expm1_stub 50 (loaded_env (constant_model (-3))) initial_state
         sample_request) =
    Response200 {| predicted_qty := 0; predicted_profit := 0 |}.
Proof.
  split; [| reflexivity].
  apply (proj1 (predicted_values_nonneg expm1_stub 50)
           (loaded_env (constant_model (-3))) initial_state sample_request
           (constant_model (-3)) _ eq_refl eq_refl).
Defined.

(** ** The optimizer's rows *)

Lemma mapM_Ok_map {A B : Type} (f : A -> result B) (g : A -> B) (l : list A) :
  (forall a, f a = Ok (g a)) -> mapM f l = Ok (map g l).
Proof.
  intro H. induction l as [| a l IH]; simpl; [reflexivity |].
  rewrite H, IH. reflexivity.
Qed.

Lemma optimize_rows_req (req : PredictRequest) (prices : list Q) :
  optimize_rows (req_dict req) prices = Ok (map (candidate_features req) prices).
Proof.
  unfold optimize_rows. apply mapM_Ok_map. intro p. apply candidate_row_req.
Qed.

Lemma optimize_body_req (expm1 : Q -> Q) (COGS : Q) (m : Model) (req : PredictRequest)
    (min_price max_price step : Q) :
  optimize_body expm1 COGS m req min_price max_price step =
    let* prices := price_grid min_price max_price step in
    optimize_select expm1 COGS m prices (map (candidate_features req) prices).
Proof.
  unfold optimize_body.
  destruct (price_grid min_price max_price step) as [prices | e]; simpl; [| reflexivity].
  rewrite optimize_rows_req. reflexivity.
Qed.

(** C5: for every grid point [p], the row the optimizer scores is the
    copy of the base request with [unit_price] replaced by [p] and with
    [price_ratio_comp_i = p / (comp_i + 1e-6)] (numpy's division, the
    quotient whenever the denominator is nonzero); the frame scored is
    exactly these rows in grid order, and the request's own [unit_price]
    occurs nowhere in them. *)
Theorem candidate_rows_use_candidate_price :
  forall (expm1 : Q -> Q) (COGS : Q) (m : Model) (req : PredictRequest)
         (min_price max_price step : Q),
    (forall prices : list Q,
       optimize_rows (req_dict req) prices =
       Ok (map (fun p =>
                  [ ("unit_price", PyFloat p);
                    ("comp_1", PyFloat (comp_1 req));
                    ("comp_2", PyFloat (comp_2 req));
                    ("comp_3", PyFloat (comp_3 req));
                    ("freight_price", PyFloat (freight_price req));
                    ("product_category_name",
                      py_optional_str (product_category_name req));
                    ("price_ratio_comp1", np_truediv p (comp_1 req + eps_ratio));
                    ("price_ratio_comp2", np_truediv p (comp_2 req + eps_ratio));
                    ("price_ratio_comp3", np_truediv p (comp_3 req + eps_ratio)) ])
               prices)) /\
    (forall p c : Q, ~ c + eps_ratio == 0 ->
       np_truediv p (c + eps_ratio) = PyFloat (p / (c + eps_ratio))) /\
    optimize_body expm1 COGS m req min_price max_price step =
      (let* prices := price_grid min_price max_price step in
       optimize_select expm1 COGS m prices (map (candidate_features req) prices)) /\
    (forall (u : Q) (prices : list Q),
       optimize_rows
         (req_dict {| unit_price := u; comp_1 := comp_1 req; comp_2 := comp_2 req;
                      comp_3 := comp_3 req; freight_price := freight_price req;
                      product_category_name := product_category_name req |}) prices =
       optimize_rows (req_dict req) prices).
Proof.
  intros expm1 COGS m req min_price max_price step. repeat apply conj.
  - intro prices. apply optimize_rows_req.
  - intros p c H. apply np_truediv_nonzero. exact H.
  - apply optimize_body_req.
  - intros u prices. rewrite !optimize_rows_req. reflexivity.
Qed.

Lemma candidate_rows_use_candidate_price_witness :
  np_truediv 7 (comp_1 sample_request + eps_ratio) =
    PyFloat (7 / (comp_1 sample_request + eps_ratio)) /\
  optimize_rows (req_dict sample_request) [7] =
    Ok [[ ("unit_price", PyFloat 7);
          ("comp_1", PyFloat 90);
          ("comp_2", PyFloat 95);
          ("comp_3", PyFloat 105);
          ("freight_price", PyFloat 10);
          ("product_category_name", PyNone);
          ("price_ratio_comp1", PyFloat (7 / (90 + eps_ratio)));
          ("price_ratio_comp2", PyFloat (7 / (95 + eps_ratio)));
          ("price_ratio_comp3", PyFloat (7 / (105 + eps_ratio))) ]].
Proof.
  split; [| reflexivity].
  apply (proj1 (proj2 (candidate_rows_use_candidate_price expm1_stub 50
                         (constant_model 0) sample_request 1 10 1)) 7 90).
  discriminate.
Defined.

(** ** Independence from the request's own price *)

(** C10: two [optimize] calls in the same process state, against the
    same files and with the same range, whose requests agree on every
    field but [unit_price], answer the same thing and leave the same
    state: the request's [unit_price] is overwritten by each candidate
    before any feature or margin is computed. *)
Theorem optimize_ignores_request_unit_price :
  forall (expm1 : Q -> Q) (COGS : Q) (env : Env) (st : State)
         (req1 req2 : PredictRequest) (min_price max_price step : Q),
    comp_1 req1 = comp_1 req2 ->
    comp_2 req1 = comp_2 req2 ->
    comp_3 req1 = comp_3 req2 ->
    freight_price req1 = freight_price req2 ->
    product_category_name req1 = product_category_name req2 ->
    optimize expm1 COGS env st req1 min_price max_price step =
    optimize expm1 COGS env st req2 min_price max_price step.
Proof.
  intros expm1 COGS env st req1 req2 min_price max_price step H1 H2 H3 Hf Hc.
  unfold optimize.
  destruct (get_model_and_metadata env st) as [[[m |] md] st']; [| reflexivity].
  rewrite !optimize_body_req.
  replace (candidate_features req1) with (candidate_features req2); [reflexivity |].
  unfold candidate_features, ratio_columns. rewrite H1, H2, H3, Hf, Hc. reflexivity.
Qed.

Lemma optimize_ignores_request_unit_price_witness :
  optimize expm1_stub 50 (loaded_env (constant_model 0)) initial_state sample_request 55 70 5 =
  optimize expm1_stub 50 (loaded_env (constant_model 0)) initial_state cheap_request 55 70 5 /\
  fst (optimize expm1_stub 50 (loaded_env (constant_model 0)) initial_state
         sample_request 55 70 5) =
    Response200 {| best_price := 55; best_profit := 0; best_qty := 0 |}.
Proof.
  split; [| reflexivity].
  apply (optimize_ignores_request_unit_price expm1_stub 50 (loaded_env (constant_model 0))
           initial_state sample_request cheap_request 55 70 5);
    reflexivity.
Defined.

(** ** The price grid *)

Lemma np_arange_nonzero (start stop step : Q) :
  ~ step == 0 ->
  np_arange start stop step =
    Ok (map (fun i => start + inject_Z (Z.of_nat i) * step)
            (seq 0 (Z.to_nat (Qceiling ((stop - start) / step))))).
Proof.
  intro H. apply Qeq_bool_false in H. unfold np_arange, py_truediv. rewrite H. reflexivity.
Qed.

Lemma StronglySorted_map_seq (R : Q -> Q -> Prop) (f : nat -> Q) (a n : nat) :
  (forall i j, (i < j)%nat -> R (f i) (f j)) ->
  StronglySorted R (map f (seq a n)).
Proof.
  intro Hf. revert a. induction n as [| n IH]; intro a; simpl; constructor.
  - apply IH.
  - apply Forall_forall. intros x Hx. apply in_map_iff in Hx.
    destruct Hx as [j [<- Hj]]. apply in_seq in Hj. apply Hf. lia.
Qed.

Lemma grid_point_increasing (start step : Q) (i j : nat) :
  0 < step -> (i < j)%nat ->
  start + inject_Z (Z.of_nat i) * step < start + inject_Z (Z.of_nat j) * step.
Proof.
  intros Hs Hij.
  assert (H : inject_Z (Z.of_nat i) < inject_Z (Z.of_nat j))
    by (rewrite <- Zlt_Qlt; lia).
  apply (Qmult_lt_compat_r _ _ step Hs) in H. lra.
Qed.

Lemma grid_point_decreasing (start step : Q) (i j : nat) :
  step < 0 -> (i < j)%nat ->
  start + inject_Z (Z.of_nat j) * step < start + inject_Z (Z.of_nat i) * step.
Proof.
  intros Hs Hij.
  assert (H : inject_Z (Z.of_nat i) < inject_Z (Z.of_nat j))
    by (rewrite <- Zlt_Qlt; lia).
  assert (Hs' : 0 < - step) by lra.
  apply (Qmult_lt_compat_r _ _ (- step) Hs') in H. lra.
Qed.


Lemma price_grid_ascending (min_price max_price step : Q) (prices : list Q) :
  0 < step -> price_grid min_price max_price step = Ok prices ->
  StronglySorted Qlt prices.
Proof.
  intros Hs H. unfold price_grid in H.
  rewrite np_arange_nonzero in H by lra. inversion H; subst.
  apply StronglySorted_map_seq. intros i j Hij. apply grid_point_increasing; assumption.
Qed.

Lemma price_grid_descending (min_price max_price step : Q) (prices : list Q) :
  step < 0 -> price_grid min_price max_price step = Ok prices ->
  StronglySorted (fun a b => b < a) prices.
Proof.
  intros Hs H. unfold price_grid in H.
  rewrite np_arange_nonzero in H by lra. inversion H; subst.
  apply StronglySorted_map_seq. intros i j Hij. apply grid_point_decreasing; assumption.
Qed.





Lemma price_grid_double_Ok (max_alloc : Z) (min_price max_price step : Q)
    (prices : list Q) :
  price_grid_double max_alloc min_price max_price step = Ok prices ->
  prices = map (arange_point min_price step) (seq 0 (List.length prices)).
Proof.
  unfold price_grid_double, np_arange_double.
  destruct (Qeq_bool step 0); [discriminate |].
  destruct (arange_quotient _ _ _) as [val |]; [| discriminate].
  destruct (_ || _); [discriminate |].
  destruct (_ <? _)%Z; [discriminate |].
  intro H. inversion H. rewrite length_map, length_seq. reflexivity.
Qed.




(** ** Selection of the best candidate *)

Lemma argmax_from_spec (l pre : list Q) (best_idx idx : nat) (best : Q) :
  idx = List.length pre ->
  nth_error pre best_idx = Some best ->
  (forall j x, nth_error pre j = Some x -> x <= best) ->
  (forall j x, nth_error pre j = Some x -> (j < best_idx)%nat -> x < best) ->
  exists b,
    nth_error (pre ++ l)%list (argmax_from best_idx best idx l) = Some b /\
    (forall j x, nth_error (pre ++ l)%list j = Some x -> x <= b) /\
    (forall j x, nth_error (pre ++ l)%list j = Some x ->
                 (j < argmax_from best_idx best idx l)%nat -> x < b).
Proof.
  revert pre best_idx idx best.
  induction l as [| x l IH]; intros pre best_idx idx best Hidx Hbest Hmax Hfirst; simpl.
  - rewrite app_nil_r. exists best. auto.
  - assert (Hin : (best_idx < List.length pre)%nat)
      by (apply nth_error_Some; congruence).
    assert (Hlast : forall j y, nth_error (pre ++ [x])%list j = Some y ->
                                (List.length pre <= j)%nat -> y = x).
    { intros j y Hj Hge. rewrite nth_error_app2 in Hj by assumption.
      destruct (j - List.length pre)%nat as [| n]; simpl in Hj.
      - congruence.
      - destruct n; discriminate. }
    replace (pre ++ x :: l)%list with ((pre ++ [x]) ++ l)%list
      by (rewrite <- app_assoc; reflexivity).
    case_Qltb best x; apply IH.
    + rewrite length_app. simpl. lia.
    + rewrite nth_error_app2 by lia. rewrite Hidx, Nat.sub_diag. reflexivity.
    + intros j y Hj. destruct (Nat.lt_ge_cases j (List.length pre)) as [Hlt | Hge].
      * rewrite nth_error_app1 in Hj by assumption. apply Hmax in Hj. lra.
      * rewrite (Hlast j y Hj Hge). lra.
    + intros j y Hj Hlt. rewrite nth_error_app1 in Hj by lia. apply Hmax in Hj. lra.
    + rewrite length_app. simpl. lia.
    + rewrite nth_error_app1 by assumption. exact Hbest.
    + intros j y Hj. destruct (Nat.lt_ge_cases j (List.length pre)) as [Hlt | Hge].
      * rewrite nth_error_app1 in Hj by assumption. eapply Hmax; eassumption.
      * rewrite (Hlast j y Hj Hge). exact E.
    + intros j y Hj Hlt. rewrite nth_error_app1 in Hj by lia.
      eapply Hfirst; eassumption.
Qed.

(** [np.argmax] returns the first index that holds the maximum. *)
Lemma np_argmax_spec (l : list Q) (i : nat) :
  np_argmax l = Ok i ->
  exists b,
    nth_error l i = Some b /\
    (forall j x, nth_error l j = Some x -> x <= b) /\
    (forall j x, nth_error l j = Some x -> (j < i)%nat -> x < b).
Proof.
  destruct l as [| x l]; simpl; [discriminate |].
  intro H. inversion H; subst. clear H.
  apply (argmax_from_spec l [x] 0%nat 1%nat x).
  - reflexivity.
  - reflexivity.
  - intros [| j] y Hj; simpl in Hj.
    + inversion Hj; subst. lra.
    + destruct j; discriminate.
  - intros j y _ Hlt. lia.
Qed.

Lemma StronglySorted_nth_error (R : Q -> Q -> Prop) (l : list Q) :
  StronglySorted R l ->
  forall i j a b,
    (i < j)%nat -> nth_error l i = Some a -> nth_error l j = Some b -> R a b.
Proof.
  induction 1 as [| x l Hsorted IH Hall]; intros i j a b Hij Ha Hb.
  - destruct i; discriminate.
  - destruct j as [| j]; [lia |]. simpl in Hb.
    destruct i as [| i]; simpl in Ha.
    + inversion Ha; subst. rewrite Forall_forall in Hall.
      apply Hall. eapply nth_error_In; eassumption.
    + eapply IH; [| eassumption | eassumption]. lia.
Qed.

Section Selection.

Variable expm1 : Q -> Q.
Variable COGS : Q.

Lemma optimize_qtys_length (m : Model) (df : DataFrame) :
  List.length (optimize_qtys expm1 m df) = List.length df.
Proof.
  unfold optimize_qtys, np_clip_lower. rewrite !length_map. apply model_predict_length.
Qed.

Lemma mapM_as_float (l : list Q) : mapM as_float (map PyFloat l) = Ok l.
Proof.
  induction l as [| q l IH]; simpl; [reflexivity |]. rewrite IH. reflexivity.
Qed.

Lemma combine_map_const (l : list Q) (c : Q) :
  combine l (map (fun _ => c) l) = map (fun p => (p, c)) l.
Proof.
  induction l as [| q l IH]; simpl; [reflexivity |]. rewrite IH. reflexivity.
Qed.

(** The margins of the optimizer's frame: each candidate price less
    [COGS] and the request's freight price. *)
Lemma optimize_margins_features (req : PredictRequest) (prices : list Q) :
  prices <> [] ->
  optimize_margins COGS (map (candidate_features req) prices) =
    Ok (map (fun p => p - COGS - freight_price req) prices).
Proof.
  intro Hne. destruct prices as [| p0 prices]; [congruence |].
  unfold optimize_margins, df_getitem.
  cbn [map existsb candidate_features ratio_columns app dict_get
       String.eqb Ascii.eqb Bool.eqb orb].
  unfold dict_get_default.
  cbn [dict_get String.eqb Ascii.eqb Bool.eqb bind].
  change (PyFloat p0 :: map (fun r : dict => match dict_get "unit_price" r with
                                            | Some v => v | None => PyNaN end)
            (map (candidate_features req) prices))
    with (map (fun r : dict => match dict_get "unit_price" r with
                               | Some v => v | None => PyNaN end)
            (map (candidate_features req) (p0 :: prices))).
  change (PyFloat (freight_price req)
            :: map (fun r : dict => match dict_get "freight_price" r with
                                    | Some v => v | None => PyNaN end)
                 (map (candidate_features req) prices))
    with (map (fun r : dict => match dict_get "freight_price" r with
                               | Some v => v | None => PyNaN end)
            (map (candidate_features req) (p0 :: prices))).
  rewrite !map_map.
  rewrite (map_ext _ PyFloat) by reflexivity.
  rewrite mapM_as_float. cbn [bind].
  rewrite (map_ext _ (fun _ => PyFloat (freight_price req))) by reflexivity.
  rewrite <- (map_map (fun _ => freight_price req) PyFloat).
  rewrite mapM_as_float. cbn [bind].
  rewrite combine_map_const, map_map. reflexivity.
Qed.

Lemma optimize_margins_empty : optimize_margins COGS [] = Raise (KeyError "unit_price").
Proof.
  reflexivity.
Qed.

Lemma np_where_profit_length (margins qtys : list Q) :
  List.length margins = List.length qtys ->
  List.length (np_where_profit margins qtys) = List.length margins.
Proof.
  intro H. unfold np_where_profit. rewrite length_map, length_combine. lia.
Qed.

(** What a selected result is, read off [optimize_select]. *)
Lemma optimize_select_spec (m : Model) (prices : list Q) (df : DataFrame)
    (r : OptimizationResult) :
  optimize_select expm1 COGS m prices df = Ok r ->
  exists profits i,
    optimize_profits expm1 COGS m df = Ok profits /\
    np_argmax profits = Ok i /\
    nth_error prices i = Some (best_price r) /\
    nth_error profits i = Some (best_profit r) /\
    nth_error (optimize_qtys expm1 m df) i = Some (best_qty r).
Proof.
  unfold optimize_select. intro H.
  apply bind_Ok in H. destruct H as [profits [Hprofits H]].
  apply bind_Ok in H. destruct H as [i [Hi H]].
  apply bind_Ok in H. destruct H as [bprice [Hbprice H]].
  apply bind_Ok in H. destruct H as [bprofit [Hbprofit H]].
  apply bind_Ok in H. destruct H as [bqty [Hbqty H]].
  inversion H; subst. simpl.
  exists profits, i. rewrite <- !py_index_nth. auto.
Qed.

(** On a non-empty grid the scan returns. *)
Lemma optimize_select_total (m : Model) (req : PredictRequest) (prices : list Q) :
  prices <> [] ->
  exists r, optimize_select expm1 COGS m prices (map (candidate_features req) prices) = Ok r.
Proof.
  intro Hne. unfold optimize_select, optimize_profits.
  rewrite (optimize_margins_features req prices Hne). cbn [bind].
  set (df := map (candidate_features req) prices).
  set (margins := map (fun p => p - COGS - freight_price req) prices).
  assert (Hq : List.length (optimize_qtys expm1 m df) = List.length prices)
    by (rewrite optimize_qtys_length; unfold df; apply length_map).
  assert (Hm : List.length margins = List.length prices) by apply length_map.
  assert (Hp : List.length (np_where_profit margins (optimize_qtys expm1 m df))
               = List.length prices)
    by (rewrite np_where_profit_length; congruence).
  destruct (np_argmax (np_where_profit margins (optimize_qtys expm1 m df)))
    as [i | e] eqn:Harg.
  - destruct (np_argmax_spec _ _ Harg) as [b [Hb _]].
    assert (Hi : (i < List.length prices)%nat)
      by (rewrite <- Hp; apply nth_error_Some; congruence).
    cbn [bind]. unfold py_index. rewrite Hb.
    destruct (nth_error prices i) as [bp |] eqn:Ebp;
      [| apply nth_error_None in Ebp; lia].
    destruct (nth_error (optimize_qtys expm1 m df) i) as [bq |] eqn:Ebq;
      [| apply nth_error_None in Ebq; lia].
    cbn [bind]. eauto.
  - destruct prices as [| p0 prices]; [congruence |].
    destruct (np_where_profit margins (optimize_qtys expm1 m df)); simpl in *;
      discriminate.
Qed.

End Selection.

Lemma optimize_returns_inv (expm1 : Q -> Q) (COGS : Q) (env : Env) (st st' : State)
    (req : PredictRequest) (min_price max_price step : Q) (r : OptimizationResult) :
  optimize expm1 COGS env st req min_price max_price step = (Response200 r, st') ->
  exists m prices,
    fst (fst (get_model_and_metadata env st)) = Some m /\
    price_grid min_price max_price step = Ok prices /\
    optimize_select expm1 COGS m prices (map (candidate_features req) prices) = Ok r.
Proof.
  unfold optimize. destruct (get_model_and_metadata env st) as [[[m |] md] st0]; simpl;
    [| discriminate].
  rewrite optimize_body_req.
  destruct (price_grid min_price max_price step) as [prices | e]; simpl; [| discriminate].
  destruct (optimize_select expm1 COGS m prices (map (candidate_features req) prices))
    as [r0 | e] eqn:E; simpl; [| discriminate].
  intro H. inversion H; subst. eauto.
Qed.

(** C7, as stated, fails: with a negative step the grid descends, and
    of two candidates with the same maximal profit the first one, which
    has the higher price, is selected. *)
Lemma tie_selects_higher_price_on_descending_grid :
  price_grid 62 60 (-1) = Ok [62; 61] /\
  (let* df := optimize_rows (req_dict sample_request) [62; 61] in
   optimize_profits expm1_stub 50 (constant_model 0) df) = Ok [0; 0] /\
  fst (optimize expm1_stub 50 (loaded_env (constant_model 0)) initial_state
         sample_request 62 60 (-1)) =
    Response200 {| best_price := 62; best_profit := 0; best_qty := 0 |}.
Proof.
  repeat split.
Qed.

(** C7 (amended): the body [optimize] answers holds the price and the
    profit of one index of the grid, so [best_price] is a grid point;
    that index is the first one whose profit is maximal.  When the step
    is positive this is the lowest price among the candidates with the
    maximal profit; when it is negative, the highest. *)
Theorem best_price_is_first_maximal_grid_point :
  forall (expm1 : Q -> Q) (COGS : Q) (env : Env) (st st' : State)
         (req : PredictRequest) (min_price max_price step : Q)
         (r : OptimizationResult),
    optimize expm1 COGS env st req min_price max_price step = (Response200 r, st') ->
    exists (m : Model) (prices : list Q) (df : DataFrame) (profits : list Q) (i : nat),
      fst (fst (get_model_and_metadata env st)) = Some m /\
      price_grid min_price max_price step = Ok prices /\
      optimize_rows (req_dict req) prices = Ok df /\
      optimize_profits expm1 COGS m df = Ok profits /\
      nth_error prices i = Some (best_price r) /\
      nth_error profits i = Some (best_profit r) /\
      In (best_price r) prices /\
      (forall j x, nth_error profits j = Some x -> x <= best_profit r) /\
      (forall j x, nth_error profits j = Some x -> (j < i)%nat -> x < best_profit r) /\
      (0 < step ->
       forall j pj x,
         nth_error prices j = Some pj -> nth_error profits j = Some x ->
         x == best_profit r -> best_price r <= pj) /\
      (step < 0 ->
       forall j pj x,
         nth_error prices j = Some pj -> nth_error profits j = Some x ->
         x == best_profit r -> pj <= best_price r).
Proof.
  intros expm1 COGS env st st' req min_price max_price step r H.
  destruct (optimize_returns_inv _ _ _ _ _ _ _ _ _ _ H) as (m & prices & Hm & Hgrid & Hsel).
  destruct (optimize_select_spec _ _ _ _ _ _ Hsel)
    as (profits & i & Hprofits & Harg & Hprice & Hprofit & _).
  destruct (np_argmax_spec _ _ Harg) as (b & Hb & Hmax & Hfirst).
  assert (b = best_profit r) by congruence. subst b.
  exists m, prices, (map (candidate_features req) prices), profits, i.
  repeat apply conj; try assumption.
  - apply optimize_rows_req.
  - eapply nth_error_In; eassumption.
  - intros Hs j pj x Hpj Hx Heq.
    destruct (Nat.lt_trichotomy j i) as [Hlt | [-> | Hgt]].
    + specialize (Hfirst j x Hx Hlt). lra.
    + assert (pj = best_price r) by congruence. subst pj. apply Qle_refl.
    + apply Qlt_le_weak.
      apply (StronglySorted_nth_error Qlt prices
               (price_grid_ascending _ _ _ _ Hs Hgrid) i j); assumption.
  - intros Hs j pj x Hpj Hx Heq.
    destruct (Nat.lt_trichotomy j i) as [Hlt | [-> | Hgt]].
    + specialize (Hfirst j x Hx Hlt). lra.
    + assert (pj = best_price r) by congruence. subst pj. apply Qle_refl.
    + apply Qlt_le_weak.
      apply (StronglySorted_nth_error (fun a b => b < a) prices
               (price_grid_descending _ _ _ _ Hs Hgrid) i j); assumption.
Qed.

(** Two candidates, 61 and 62, tie at profit 0: the lower one is selected. *)
Lemma best_price_is_first_maximal_grid_point_witness :
  fst (optimize expm1_stub 50 (loaded_env (constant_model 0)) initial_state
         sample_request 61 62 1) =
    Response200 {| best_price := 61; best_profit := 0; best_qty := 0 |} /\
  exists (m : Model) (prices : list Q) (df : DataFrame) (profits : list Q) (i : nat),
    fst (fst (get_model_and_metadata (loaded_env (constant_model 0)) initial_state)) = Some m /\
    price_grid 61 62 1 = Ok prices /\
    optimize_rows (req_dict sample_request) prices = Ok df /\
    optimize_profits expm1_stub 50 m df = Ok profits /\
    nth_error prices i = Some 61 /\
    nth_error profits i = Some 0 /\
    In 61 prices /\
    (forall j x, nth_error profits j = Some x -> x <= 0) /\
    (forall j x, nth_error profits j = Some x -> (j < i)%nat -> x < 0) /\
    (0 < 1 ->
     forall j pj x,
       nth_error prices j = Some pj -> nth_error profits j = Some x ->
       x == 0 -> 61 <= pj) /\
    (1 < 0 ->
     forall j pj x,
       nth_error prices j = Some pj -> nth_error profits j = Some x ->
       x == 0 -> pj <= 61).
Proof.
  split; [reflexivity |].
  apply (best_price_is_first_maximal_grid_point expm1_stub 50
           (loaded_env (constant_model 0)) initial_state
           {| MODEL := Some (constant_model 0);
              METADATA := Some {| num_cols := None; cat_cols := None |};
              load_calls := 1 |}
           sample_request 61 62 1
           {| best_price := 61; best_profit := 0; best_qty := 0 |}).
  reflexivity.
Defined.

(** ** Ranges the optimizer does not validate *)

Lemma quotient_nonpos (a step : Q) :
  (0 < step /\ a <= 0) \/ (step < 0 /\ 0 <= a) -> a / step <= 0.
Proof.
  intros [[Hs Ha] | [Hs Ha]].
  - apply Qle_shift_div_r; [exact Hs | lra].
  - assert (E : a / step == (- a) / (- step)) by (field; lra).
    rewrite E. apply Qle_shift_div_r; lra.
Qed.

Lemma optimize_body_double_req (expm1 : Q -> Q) (COGS : Q) (max_alloc : Z) (m : Model)
    (req : PredictRequest) (min_price max_price step : Q) :
  optimize_body_double expm1 COGS max_alloc m req min_price max_price step =
    let* prices := price_grid_double max_alloc min_price max_price step in
    optimize_select expm1 COGS m prices (map (candidate_features req) prices).
Proof.
  unfold optimize_body_double.
  destruct (price_grid_double max_alloc min_price max_price step) as [prices | e];
    simpl; [| reflexivity].
  rewrite optimize_rows_req. reflexivity.
Qed.

Lemma optimize_double_loaded (expm1 : Q -> Q) (COGS : Q) (max_alloc : Z) (env : Env)
    (st : State) (m : Model) (req : PredictRequest) (min_price max_price step : Q) :
  fst (fst (get_model_and_metadata env st)) = Some m ->
  optimize_double expm1 COGS max_alloc env st req min_price max_price step =
    (respond (let* prices := price_grid_double max_alloc min_price max_price step in
              optimize_select expm1 COGS m prices (map (candidate_features req) prices)),
     snd (get_model_and_metadata env st)).
Proof.
  intro Hm. unfold optimize_double.
  destruct (get_model_and_metadata env st) as [[model md] st']. simpl in Hm. subst model.
  rewrite optimize_body_double_req. reflexivity.
Qed.

Lemma arange_quotient_Some (start stop step val : Q) :
  arange_quotient start stop step = Some val ->
  val = fl_div (fl_sub stop start) step.
Proof.
  unfold arange_quotient.
  destruct (Qle_bool (Qabs (fl_sub stop start)) double_max); [| discriminate].
  destruct (Qle_bool (Qabs (fl_div (fl_sub stop start) step)) double_max);
    [| discriminate].
  intro H. inversion H. reflexivity.
Qed.

(** A range that runs against the sign of the step has no point. *)
Lemma arange_length_backwards (start stop step : Q) :
  (0 < step /\ stop <= start) \/ (step < 0 /\ start <= stop) ->
  (arange_length start stop step (fl_div (fl_sub stop start) step) <= 0)%Z.
Proof.
  intro H.
  assert (Hs : ~ step == 0) by (destruct H as [[Hs _] | [Hs _]]; lra).
  assert (Hd : (0 < step /\ fl_sub stop start <= 0) \/ (step < 0 /\ 0 <= fl_sub stop start)).
  { destruct H as [[Hp Ha] | [Hp Ha]]; [left | right]; (split; [exact Hp |]).
    - apply round_double_nonpos. lra.
    - apply round_double_nonneg. lra. }
  pose proof (quotient_nonpos _ _ Hd) as Hq.
  unfold arange_length.
  destruct (Qeq_bool (fl_div (fl_sub stop start) step) 0
            && negb (Qeq_bool (fl_sub stop start) 0)) eqn:Eu.
  - apply andb_true_iff in Eu. destruct Eu as [_ Enz].
    apply negb_true_iff, Qeq_bool_false in Enz.
    assert (Hlt : fl_sub stop start / step < 0).
    { destruct (Qlt_le_dec (fl_sub stop start / step) 0) as [Hlt | Hge]; [exact Hlt |].
      exfalso. apply Enz.
      assert (E : fl_sub stop start / step == 0) by lra.
      assert (E' : fl_sub stop start == (fl_sub stop start / step) * step)
        by (field; exact Hs).
      rewrite E'. rewrite E. ring. }
    apply Qltb_lt in Hlt. rewrite Hlt. lia.
  - assert (Hv : fl_div (fl_sub stop start) step <= 0)
      by (apply round_double_nonpos; exact Hq).
    apply Qceiling_nonpos. exact Hv.
Qed.

Lemma np_arange_double_backwards (max_alloc : Z) (start stop step : Q) :
  (0 < step /\ stop <= start) \/ (step < 0 /\ start <= stop) ->
  np_arange_double max_alloc start stop step = Ok [] \/
  exists e, np_arange_double max_alloc start stop step = Raise e.
Proof.
  intro H. unfold np_arange_double.
  destruct (Qeq_bool step 0); [right; eauto |].
  destruct (arange_quotient start stop step) as [val |] eqn:Eq; [| right; eauto].
  apply arange_quotient_Some in Eq. subst val.
  pose proof (arange_length_backwards _ _ _ H) as Hlen.
  destruct (_ || _); [right; eauto |].
  destruct (_ <? _)%Z; [right; eauto |].
  left. replace (Z.to_nat _) with 0%nat by lia. reflexivity.
Qed.

(** C1, as stated, fails: with a model loaded, a zero step and a range
    with [min_price > max_price] each end in an exception nobody
    handles, and a negative step with [min_price > max_price] is scanned
    downwards and answered like any other range. *)
Lemma degenerate_ranges_raise_or_are_scanned :
  fst (optimize_double expm1_stub 50 1000000 (loaded_env (constant_model 0))
         initial_state sample_request 1 10 0) = Unhandled ZeroDivisionError /\
  fst (optimize_double expm1_stub 50 1000000 (loaded_env (constant_model 0))
         initial_state sample_request 3 1 1) = Unhandled (KeyError "unit_price") /\
  price_grid_double 1000000 62 60 (-1) = Ok [62; 61] /\
  fst (optimize_double expm1_stub 50 1000000 (loaded_env (constant_model 0))
         initial_state sample_request 62 60 (-1)) =
    Response200 {| best_price := 62; best_profit := 0; best_qty := 0 |}.
Proof.
  repeat split; vm_compute; reflexivity.
Qed.

(** C1 (amended): [optimize] does not validate its range.  With a model
    loaded: a zero step raises [ZeroDivisionError] in grid generation and
    nothing handles it; a range that runs against the sign of its step
    (a positive step with [min_price] at or above the float sum
    [max_price + 1e-9], or a negative step with [min_price] at or below
    it) ends in an unhandled exception as well, and so does every range
    for which [np.arange] raises or returns no point; a range for which
    [np.arange] returns points, whatever the order of its bounds and the
    sign of its step, is answered with a body whose [best_price] is one
    of these points. *)
Theorem degenerate_range_is_not_validated :
  forall (expm1 : Q -> Q) (COGS : Q) (max_alloc : Z) (env : Env) (st : State)
         (m : Model) (req : PredictRequest) (min_price max_price step : Q),
    fst (fst (get_model_and_metadata env st)) = Some m ->
    (step == 0 ->
       fst (optimize_double expm1 COGS max_alloc env st req min_price max_price step) =
         Unhandled ZeroDivisionError) /\
    ((0 < step /\ fl_add max_price eps_grid_double <= min_price) \/
     (step < 0 /\ min_price <= fl_add max_price eps_grid_double) ->
       exists e,
         fst (optimize_double expm1 COGS max_alloc env st req min_price max_price step) =
           Unhandled e) /\
    (forall e,
       price_grid_double max_alloc min_price max_price step = Raise e ->
       fst (optimize_double expm1 COGS max_alloc env st req min_price max_price step) =
         Unhandled e) /\
    (price_grid_double max_alloc min_price max_price step = Ok [] ->
       exists e,
         fst (optimize_double expm1 COGS max_alloc env st req min_price max_price step) =
           Unhandled e) /\
    (forall p prices,
       price_grid_double max_alloc min_price max_price step = Ok (p :: prices) ->
       exists r,
         fst (optimize_double expm1 COGS max_alloc env st req min_price max_price step) =
           Response200 r /\
         In (best_price r) (p :: prices)).
Proof.
  intros expm1 COGS max_alloc env st m req min_price max_price step Hm.
  rewrite (optimize_double_loaded _ _ _ _ _ _ _ _ _ _ Hm). cbn [fst].
  repeat apply conj.
  - intro Hz. unfold price_grid_double, np_arange_double.
    apply Qeq_bool_iff in Hz. rewrite Hz. reflexivity.
  - intro H.
    destruct (np_arange_double_backwards max_alloc min_price
                (fl_add max_price eps_grid_double) step H) as [Hgrid | [e Hgrid]];
      unfold price_grid_double; rewrite Hgrid; eexists; reflexivity.
  - intros e Hgrid. rewrite Hgrid. reflexivity.
  - intro Hgrid. rewrite Hgrid. eexists. reflexivity.
  - intros p prices Hgrid. rewrite Hgrid. cbn [bind].
    destruct (optimize_select_total expm1 COGS m req (p :: prices)) as [r Hr];
      [discriminate |].
    exists r. rewrite Hr. split; [reflexivity |].
    destruct (optimize_select_spec _ _ _ _ _ _ Hr) as (_ & i & _ & _ & Hprice & _).
    eapply nth_error_In; eassumption.
Qed.

(** A zero step; a range of one price above [2^24], where adding [1e-9]
    changes nothing; and a range scanned downwards. *)
Lemma degenerate_range_is_not_validated_witness :
  fst (optimize_double expm1_stub 50 1000000 (loaded_env (constant_model 0))
         initial_state sample_request 1 10 0) = Unhandled ZeroDivisionError /\
  (exists e,
     fst (optimize_double expm1_stub 50 1000000 (loaded_env (constant_model 0))
            initial_state sample_request 16777216 16777216 1) = Unhandled e) /\
  (exists r,
     fst (optimize_double expm1_stub 50 1000000 (loaded_env (constant_model 0))
            initial_state sample_request 62 60 (-1)) = Response200 r /\
     In (best_price r) [62; 61]).
Proof.
  split; [| split].
  - apply (proj1 (degenerate_range_is_not_validated expm1_stub 50 1000000
                    (loaded_env (constant_model 0)) initial_state (constant_model 0)
                    sample_request 1 10 0 eq_refl)).
    reflexivity.
  - apply (proj1 (proj2 (degenerate_range_is_not_validated expm1_stub 50 1000000
                           (loaded_env (constant_model 0)) initial_state
                           (constant_model 0) sample_request 16777216 16777216 1
                           eq_refl))).
    left. split; [reflexivity | vm_compute; discriminate].
  - apply (proj2 (proj2 (proj2 (proj2
             (degenerate_range_is_not_validated expm1_stub 50 1000000
                (loaded_env (constant_model 0)) initial_state (constant_model 0)
                sample_request 62 60 (-1) eq_refl))))).
    vm_compute. reflexivity.
Defined.

(** ** Column order under metadata *)

Lemma dict_set_fresh (k : string) (v : pyval) (d : dict) :
  ~ In k (dict_keys d) -> dict_set k v d = (d ++ [(k, v)])%list.
Proof.
  induction d as [| [k' v'] d IH]; simpl; intro H; [reflexivity |].
  destruct (String.eqb_spec k k') as [-> | Hne].
  - exfalso. apply H. left. reflexivity.
  - rewrite IH; [reflexivity |]. intro Hin. apply H. right. exact Hin.
Qed.

Lemma fold_dict_set_fresh (f : string -> pyval) (ks : list string) (acc : dict) :
  NoDup ks ->
  (forall k, In k ks -> ~ In k (dict_keys acc)) ->
  fold_left (fun row k => dict_set k (f k) row) ks acc =
    (acc ++ map (fun k => (k, f k)) ks)%list.
Proof.
  revert acc. induction ks as [| k ks IH]; intros acc Hnd Hfresh; simpl.
  - rewrite app_nil_r. reflexivity.
  - inversion Hnd as [| k0 ks0 Hk Hnd']; subst.
    rewrite dict_set_fresh by (apply Hfresh; left; reflexivity).
    rewrite IH; [rewrite <- app_assoc; reflexivity | exact Hnd' |].
    intros k' Hk' Hin. unfold dict_keys in Hin. rewrite map_app in Hin.
    apply in_app_or in Hin. destruct Hin as [Hin | [<- | []]].
    + apply (Hfresh k'); [right; exact Hk' | exact Hin].
    + contradiction.
Qed.

Lemma dict_keys_map (f : string -> pyval) (ks : list string) :
  dict_keys (map (fun k => (k, f k)) ks) = ks.
Proof.
  unfold dict_keys. rewrite map_map. simpl. apply map_id.
Qed.

(** The row under duplicate-free declarations. *)
Lemma build_row_NoDup (p : dict) (ncs ccs : list string) :
  NoDup (ncs ++ ccs) ->
  build_row p ncs ccs =
    (map (fun k => (k, dict_get_default k p (PyInt 0))) ncs ++
     map (fun c => (c, dict_get_default c p PyNone)) ccs)%list.
Proof.
  intro Hnd. unfold build_row.
  rewrite (fold_dict_set_fresh (fun k => dict_get_default k p (PyInt 0)) ncs []).
  - simpl. apply (fold_dict_set_fresh (fun c => dict_get_default c p PyNone)).
    + eapply NoDup_app_remove_l; eassumption.
    + intros c Hc Hin. rewrite dict_keys_map in Hin.
      revert c Hin Hc. induction ncs as [| k ncs IH]; intros c Hin Hc; [contradiction |].
      simpl in Hnd. inversion Hnd as [| k0 l0 Hk Hnd']; subst.
      destruct Hin as [-> | Hin].
      * apply Hk. apply in_or_app. right. exact Hc.
      * eapply IH; eassumption.
  - eapply NoDup_app_remove_r; eassumption.
  - intros k _ [].
Qed.

Lemma dict_get_not_key (k : string) (d : dict) :
  ~ In k (dict_keys d) -> dict_get k d = None.
Proof.
  induction d as [| [k' v'] d IH]; simpl; intro H; [reflexivity |].
  destruct (String.eqb_spec k k') as [-> | Hne].
  - exfalso. apply H. left. reflexivity.
  - apply IH. intro Hin. apply H. right. exact Hin.
Qed.

Lemma dict_get_map_in (f : string -> pyval) (ks : list string) (k : string) (rest : dict) :
  In k ks -> dict_get k (map (fun k => (k, f k)) ks ++ rest)%list = Some (f k).
Proof.
  induction ks as [| k' ks IH]; simpl; intro H; [contradiction |].
  destruct (String.eqb_spec k k') as [-> | Hne]; [reflexivity |].
  destruct H as [-> | H]; [contradiction | apply IH; exact H].
Qed.

Lemma dict_get_app_not_key (d1 d2 : dict) (k : string) :
  ~ In k (dict_keys d1) -> dict_get k (d1 ++ d2)%list = dict_get k d2.
Proof.
  induction d1 as [| [k' v'] d1 IH]; simpl; intro H; [reflexivity |].
  destruct (String.eqb_spec k k') as [-> | Hne].
  - exfalso. apply H. left. reflexivity.
  - apply IH. intro Hin. apply H. right. exact Hin.
Qed.

(** C9, as stated, fails: when a name is declared twice the dictionary
    row holds it once.  Here [region], absent from the input, is declared
    numeric and categorical: the row has two columns instead of the three
    declared, and the numeric column [region] holds null, not 0. *)
Lemma repeated_column_is_not_repeated :
  make_input_df (state_with_metadata overlapping_metadata) (req_dict sample_request) =
    Ok [[("unit_price", PyFloat 100); ("region", PyNone)]] /\
  dict_get "region" (req_dict sample_request) = None /\
  [("unit_price", PyFloat 100); ("region", PyNone)] <>
  [("unit_price", PyFloat 100); ("region", PyInt 0); ("region", PyNone)].
Proof.
  repeat split. discriminate.
Qed.

(** C9 (amended): when metadata is present and declares [num_cols], and
    no column name is declared twice (within or across the numeric and
    the categorical list), the frame [make_input_df] builds has one row
    whose columns are exactly the declared numeric columns followed by
    the declared categorical columns, in the declared order; a numeric
    column holds the input's value, or 0 when the input lacks it; a
    categorical column holds the input's value, or null when the input
    lacks it; a field that is not declared is not in the row. *)
Theorem make_input_df_follows_metadata :
  forall (st : State) (payload p : dict) (md : Metadata) (ncs : list string),
    add_price_ratios payload = Ok p ->
    METADATA st = Some md ->
    num_cols md = Some ncs ->
    NoDup (ncs ++ declared_cat_cols md) ->
    exists row,
      make_input_df st payload = Ok [row] /\
      row = (map (fun k => (k, dict_get_default k p (PyInt 0))) ncs ++
             map (fun c => (c, dict_get_default c p PyNone)) (declared_cat_cols md))%list /\
      dict_keys row = (ncs ++ declared_cat_cols md)%list /\
      (forall k, In k ncs ->
         dict_get k row = Some (match dict_get k p with Some v => v | None => PyInt 0 end)) /\
      (forall c, In c (declared_cat_cols md) ->
         dict_get c row = Some (match dict_get c p with Some v => v | None => PyNone end)) /\
      (forall k, ~ In k (ncs ++ declared_cat_cols md) -> dict_get k row = None).
Proof.
  intros st payload p md ncs Hp Hmd Hncs Hnd.
  eexists. split; [| split; [reflexivity |]].
  - unfold make_input_df. rewrite Hp. cbn [bind]. rewrite Hmd, Hncs.
    fold (declared_cat_cols md). rewrite build_row_NoDup by exact Hnd. reflexivity.
  - repeat apply conj.
    + unfold dict_keys. rewrite map_app, !map_map. simpl. rewrite !map_id. reflexivity.
    + intros k Hk. apply dict_get_map_in. exact Hk.
    + intros c Hc. rewrite dict_get_app_not_key.
      * rewrite <- (app_nil_r (map _ (declared_cat_cols md))).
        apply (dict_get_map_in (fun c => dict_get_default c p PyNone)). exact Hc.
      * rewrite dict_keys_map. intro Hin.
        clear - Hnd Hc Hin. induction ncs as [| k ncs IH]; [contradiction |].
        simpl in Hnd. inversion Hnd as [| k0 l0 Hk Hnd']; subst.
        destruct Hin as [-> | Hin].
        -- apply Hk. apply in_or_app. right. exact Hc.
        -- apply IH; assumption.
    + intros k Hk. apply dict_get_not_key.
      unfold dict_keys. rewrite map_app, !map_map. simpl. rewrite !map_id. exact Hk.
Qed.

(** With the metadata the training script writes, the request's fields
    and ratios come out in the trained order. *)
Lemma make_input_df_follows_metadata_witness :
  exists row,
    make_input_df (state_with_metadata trained_metadata) (req_dict sample_request) =
      Ok [row] /\
    dict_keys row =
      ["unit_price"; "comp_1"; "comp_2"; "comp_3"; "freight_price";
       "price_ratio_comp1"; "price_ratio_comp2"; "price_ratio_comp3";
       "product_category_name"].
Proof.
  destruct (make_input_df_follows_metadata
              (state_with_metadata trained_metadata) (req_dict sample_request)
              (req_dict sample_request ++
               ratio_columns (fun den => PyFloat (unit_price sample_request / den))
                 sample_request)%list
              trained_metadata
              ["unit_price"; "comp_1"; "comp_2"; "comp_3"; "freight_price";
               "price_ratio_comp1"; "price_ratio_comp2"; "price_ratio_comp3"]
              eq_refl eq_refl eq_refl)
    as (row & Hdf & _ & Hkeys & _).
  - repeat (constructor; [simpl; intuition discriminate |]). constructor.
  - exists row. split; [exact Hdf | exact Hkeys].
Defined.

(** * Further properties *)

(** ** Loading *)

(** X2: a call of [get_model_and_metadata] returns what it leaves in the
    globals, invokes the load sequence at most once, and a second call
    against unchanged files returns the same pair. *)
Theorem get_model_and_metadata_repeatable :
  forall (env : Env) (st : State),
    MODEL (snd (get_model_and_metadata env st)) = fst (fst (get_model_and_metadata env st)) /\
    METADATA (snd (get_model_and_metadata env st)) = snd (fst (get_model_and_metadata env st)) /\
    (load_calls st <= load_calls (snd (get_model_and_metadata env st)) <= S (load_calls st))%nat /\
    fst (get_model_and_metadata env (snd (get_model_and_metadata env st))) =
      fst (get_model_and_metadata env st).
Proof.
  intros env st. unfold get_model_and_metadata.
  destruct (MODEL st) as [m0 |] eqn:EM0; destruct (METADATA st) as [md0 |] eqn:ED0;
    destruct (try_load_model env) as [[m' |] [md' |]] eqn:Hload;
    cbn [fst snd MODEL METADATA load_calls];
    rewrite ?EM0, ?ED0, ?Hload;
    cbn [fst snd MODEL METADATA load_calls];
    repeat apply conj; try reflexivity; lia.
Qed.

(** ** Health and prediction *)

Lemma handler_model_cases (expm1 : Q -> Q) (COGS : Q) (env : Env) (st : State)
    (req : PredictRequest) (min_price max_price step : Q) :
  match fst (fst (get_model_and_metadata env st)) with
  | None =>
      fst (predict expm1 COGS env st req) = HTTPException 503 "Model not loaded" /\
      fst (optimize expm1 COGS env st req min_price max_price step) =
        HTTPException 503 "Model not loaded"
  | Some m =>
      fst (predict expm1 COGS env st req) =
        respond (predict_body expm1 COGS (snd (get_model_and_metadata env st)) m req) /\
      fst (optimize expm1 COGS env st req min_price max_price step) =
        respond (optimize_body expm1 COGS m req min_price max_price step)
  end.
Proof.
  unfold predict, optimize.
  destruct (get_model_and_metadata env st) as [[[m |] md] st']; simpl; split; reflexivity.
Qed.

Lemma respond_not_http {A : Type} (r : result A) (code : Z) (detail : string) :
  respond r <> HTTPException code detail.
Proof.
  destruct r; discriminate.
Qed.

(** X3: [health] always answers a body with status "ok"; its
    [model_loaded] flag is false exactly when [predict], and exactly
    when [optimize], called in the same state against the same files,
    answers 503; and it leaves the globals as those handlers do. *)
Theorem health_reports_availability :
  forall (expm1 : Q -> Q) (COGS : Q) (env : Env) (st : State)
         (req : PredictRequest) (min_price max_price step : Q),
    exists loaded : bool,
      fst (health env st) = Response200 {| status := "ok"; model_loaded := loaded |} /\
      (loaded = false <->
         fst (predict expm1 COGS env st req) = HTTPException 503 "Model not loaded") /\
      (loaded = false <->
         fst (optimize expm1 COGS env st req min_price max_price step) =
           HTTPException 503 "Model not loaded") /\
      snd (predict expm1 COGS env st req) = snd (health env st) /\
      snd (optimize expm1 COGS env st req min_price max_price step) = snd (health env st).
Proof.
  intros expm1 COGS env st req min_price max_price step.
  pose proof (handler_model_cases expm1 COGS env st req min_price max_price step) as Hc.
  assert (Hst : snd (predict expm1 COGS env st req) = snd (health env st) /\
                snd (optimize expm1 COGS env st req min_price max_price step)
                  = snd (health env st)).
  { unfold predict, optimize, health.
    destruct (get_model_and_metadata env st) as [[[m |] md] st']; simpl; split; reflexivity. }
  unfold health in *.
  destruct (get_model_and_metadata env st) as [[[m |] md] st']; simpl in *;
    destruct Hc as [Hp Ho]; destruct Hst as [Hs1 Hs2].
  - exists true. rewrite Hp, Ho.
    repeat apply conj; try assumption; try reflexivity;
      intro H; first [discriminate H | exfalso; eapply respond_not_http; exact H].
  - exists false. rewrite Hp, Ho.
    repeat apply conj; try assumption; try reflexivity; intro H; reflexivity.
Qed.

Lemma zero_denominator_iff (c : Q) :
  Qeq_bool (c + eps_ratio) 0 = true <-> c == - eps_ratio.
Proof.
  rewrite Qeq_bool_iff. split; intro H; lra.
Qed.

Lemma add_price_ratios_req_cases (req : PredictRequest) :
  add_price_ratios (req_dict req) =
    if Qeq_bool (comp_1 req + eps_ratio) 0
       || Qeq_bool (comp_2 req + eps_ratio) 0
       || Qeq_bool (comp_3 req + eps_ratio) 0
    then Raise ZeroDivisionError
    else Ok (req_dict req ++
             ratio_columns (fun den => PyFloat (unit_price req / den)) req)%list.
Proof.
  unfold add_price_ratios, price_ratio, py_truediv, ratio_columns. dict_eval.
  destruct (Qeq_bool (comp_1 req + eps_ratio) 0); dict_eval; [reflexivity |].
  destruct (Qeq_bool (comp_2 req + eps_ratio) 0); dict_eval; [reflexivity |].
  destruct (Qeq_bool (comp_3 req + eps_ratio) 0); dict_eval; reflexivity.
Qed.

Lemma make_input_df_req_cases (st : State) (req : PredictRequest) :
  (comp_1 req == - eps_ratio \/ comp_2 req == - eps_ratio \/ comp_3 req == - eps_ratio) /\
    make_input_df st (req_dict req) = Raise ZeroDivisionError
  \/
  (~ comp_1 req == - eps_ratio /\ ~ comp_2 req == - eps_ratio /\
   ~ comp_3 req == - eps_ratio) /\
    exists row, make_input_df st (req_dict req) = Ok [row].
Proof.
  unfold make_input_df. rewrite add_price_ratios_req_cases.
  destruct (Qeq_bool (comp_1 req + eps_ratio) 0) eqn:E1;
    [left; split; [left; apply zero_denominator_iff; exact E1 | reflexivity] |].
  destruct (Qeq_bool (comp_2 req + eps_ratio) 0) eqn:E2;
    [left; split; [right; left; apply zero_denominator_iff; exact E2 | reflexivity] |].
  destruct (Qeq_bool (comp_3 req + eps_ratio) 0) eqn:E3;
    [left; split; [right; right; apply zero_denominator_iff; exact E3 | reflexivity] |].
  right. split.
  - repeat split; intro H; apply zero_denominator_iff in H; congruence.
  - simpl. destruct (METADATA st) as [md |]; [destruct (num_cols md) |]; eauto.
Qed.

Lemma predict_body_cases (expm1 : Q -> Q) (COGS : Q) (st : State) (m : Model)
    (req : PredictRequest) :
  (comp_1 req == - eps_ratio \/ comp_2 req == - eps_ratio \/ comp_3 req == - eps_ratio) /\
    predict_body expm1 COGS st m req = Raise ZeroDivisionError
  \/
  (~ comp_1 req == - eps_ratio /\ ~ comp_2 req == - eps_ratio /\
   ~ comp_3 req == - eps_ratio) /\
    exists row log_pred,
      make_input_df st (req_dict req) = Ok [row] /\
      nth_error (model_predict m [row]) 0 = Some log_pred /\
      predict_body expm1 COGS st m req = Ok (prediction_of expm1 COGS log_pred req).
Proof.
  unfold predict_body.
  destruct (make_input_df_req_cases st req) as [[Hz Hdf] | [Hnz [row Hdf]]]; rewrite Hdf.
  - left. split; [exact Hz | reflexivity].
  - right. split; [exact Hnz |].
    pose proof (model_predict_length m [row]) as Hlen.
    destruct (model_predict m [row]) as [| log_pred rest] eqn:Hp; [discriminate |].
    exists row, log_pred. cbn [bind]. rewrite Hp.
    split; [reflexivity | split; reflexivity].
Qed.

Lemma py_max_zero_nonpos (x : Q) : x <= 0 -> py_max 0 x = 0.
Proof.
  intro H. unfold py_max. case_Qltb 0 x; [exfalso; lra | reflexivity].
Qed.

Lemma py_max_zero_pos (x : Q) : 0 < x -> py_max 0 x = x.
Proof.
  intro H. unfold py_max. case_Qltb 0 x; [reflexivity | exfalso; lra].
Qed.

Lemma predict_returns_inv (expm1 : Q -> Q) (COGS : Q) (env : Env) (st : State)
    (req : PredictRequest) (r : PredictionResult) :
  fst (predict expm1 COGS env st req) = Response200 r ->
  exists m row log_pred,
    fst (fst (get_model_and_metadata env st)) = Some m /\
    make_input_df (snd (get_model_and_metadata env st)) (req_dict req) = Ok [row] /\
    nth_error (model_predict m [row]) 0 = Some log_pred /\
    r = prediction_of expm1 COGS log_pred req.
Proof.
  intro H.
  pose proof (handler_model_cases expm1 COGS env st req 0 0 0) as Hc.
  destruct (fst (fst (get_model_and_metadata env st))) as [m |];
    destruct Hc as [Hp _]; rewrite Hp in H; [| discriminate].
  destruct (predict_body_cases expm1 COGS (snd (get_model_and_metadata env st)) m req)
    as [[_ Hb] | [_ (row & lp & Hdf & Hlp & Hb)]]; rewrite Hb in H; simpl in H;
    [discriminate |].
  inversion H; subst. exists m, row, lp. auto.
Qed.

Lemma Qmult_nonpos_nonneg (a b : Q) : a <= 0 -> 0 <= b -> a * b <= 0.
Proof.
  intros Ha Hb.
  assert (H : 0 <= (- a) * b) by (apply Qmult_le_0_compat; lra).
  setoid_replace (a * b) with (- ((- a) * b)) by ring. lra.
Qed.

Lemma Qmult_pos_pos (a b : Q) : 0 < a -> 0 < b -> 0 < a * b.
Proof.
  intros Ha Hb. setoid_replace 0 with (0 * b) by ring.
  apply Qmult_lt_compat_r; assumption.
Qed.

(** X5: in a body [predict] answers, with [log_pred] the model's output
    for the request's row: a price at or below cost ([unit_price <= COGS
    + freight_price]) has profit exactly 0; a prediction with
    [expm1 log_pred <= 0] has quantity and profit exactly 0; a price
    above cost with [expm1 log_pred > 0] has quantity [expm1 log_pred]
    and profit margin times that quantity, unclipped. *)
Theorem predict_profit_cases :
  forall (expm1 : Q -> Q) (COGS : Q) (env : Env) (st : State)
         (req : PredictRequest) (r : PredictionResult),
    fst (predict expm1 COGS env st req) = Response200 r ->
    exists (m : Model) (row : dict) (log_pred : Q),
      fst (fst (get_model_and_metadata env st)) = Some m /\
      make_input_df (snd (get_model_and_metadata env st)) (req_dict req) = Ok [row] /\
      nth_error (model_predict m [row]) 0 = Some log_pred /\
      (unit_price req <= COGS + freight_price req -> predicted_profit r = 0) /\
      (expm1 log_pred <= 0 -> predicted_qty r = 0 /\ predicted_profit r = 0) /\
      (COGS + freight_price req < unit_price req -> 0 < expm1 log_pred ->
         predicted_qty r = expm1 log_pred /\
         predicted_profit r =
           (unit_price req - COGS - freight_price req) * expm1 log_pred).
Proof.
  intros expm1 COGS env st req r H.
  destruct (predict_returns_inv _ _ _ _ _ _ H) as (m & row & lp & Hm & Hdf & Hlp & ->).
  exists m, row, lp. repeat apply conj; try assumption; simpl.
  - intro Hcost. apply py_max_zero_nonpos.
    apply Qmult_nonpos_nonneg; [lra | apply py_max_nonneg].
  - intro Hlp0. rewrite (py_max_zero_nonpos _ Hlp0). split; [reflexivity |].
    apply py_max_zero_nonpos. rewrite Qmult_0_r. apply Qle_refl.
  - intros Hprofit Hpos. rewrite (py_max_zero_pos _ Hpos). split; [reflexivity |].
    apply py_max_zero_pos. apply Qmult_pos_pos; lra.
Qed.

(** A price below cost: the profit is 0. *)
Lemma predict_profit_cases_witness :
  fst (predict expm1_stub 50 (loaded_env (constant_model 0)) initial_state cheap_request)
    = Response200 {| predicted_qty := 0; predicted_profit := 0 |} /\
  unit_price cheap_request <= 50 + freight_price cheap_request /\
  predicted_profit {| predicted_qty := 0; predicted_profit := 0 |} = 0.
Proof.
  split; [reflexivity |]. split; [discriminate |].
  destruct (predict_profit_cases expm1_stub 50 (loaded_env (constant_model 0))
              initial_state cheap_request
              {| predicted_qty := 0; predicted_profit := 0 |} eq_refl)
    as (m & row & lp & _ & _ & _ & Hcost & _).
  apply Hcost. discriminate.
Defined.

(** ** The feature builder on arbitrary payloads *)

Lemma dict_get_dict_set (k k' : string) (v : pyval) (d : dict) :
  dict_get k (dict_set k' v d) = if String.eqb k k' then Some v else dict_get k d.
Proof.
  induction d as [| [k0 v0] d IH]; simpl.
  - destruct (String.eqb k k'); reflexivity.
  - destruct (String.eqb_spec k' k0) as [-> | Hne]; simpl.
    + destruct (String.eqb k k0); reflexivity.
    + destruct (String.eqb_spec k k0) as [-> | Hne0].
      * destruct (String.eqb_spec k0 k') as [-> | _]; [contradiction | reflexivity].
      * exact IH.
Qed.

Lemma dict_keys_dict_set (k : string) (v : pyval) (d : dict) :
  dict_keys (dict_set k v d) =
    if column_in k (dict_keys d) then dict_keys d else (dict_keys d ++ [k])%list.
Proof.
  unfold column_in. induction d as [| [k0 v0] d IH]; simpl; [reflexivity |].
  destruct (String.eqb_spec k k0) as [-> | Hne]; simpl; [reflexivity |].
  rewrite IH. destruct (existsb (String.eqb k) (dict_keys d)); reflexivity.
Qed.

Lemma column_in_In (c : string) (columns : list string) :
  column_in c columns = true <-> In c columns.
Proof.
  unfold column_in. rewrite existsb_exists. split.
  - intros [x [Hx E]]. apply String.eqb_eq in E. subst. exact Hx.
  - intro H. exists c. split; [exact H | apply String.eqb_refl].
Qed.

Lemma column_in_false (c : string) (columns : list string) :
  column_in c columns = false <-> ~ In c columns.
Proof.
  rewrite <- column_in_In. destruct (column_in c columns); split; congruence.
Qed.

Lemma dict_set_equiv (k : string) (v : pyval) (d1 d2 : dict) :
  dict_equiv d1 d2 -> dict_equiv (dict_set k v d1) (dict_set k v d2).
Proof.
  intros H k0. rewrite !dict_get_dict_set. rewrite (H k0). reflexivity.
Qed.

Lemma price_ratio_equiv (d1 d2 : dict) (comp : string) :
  dict_equiv d1 d2 -> price_ratio d1 comp = price_ratio d2 comp.
Proof.
  intro H. unfold price_ratio, float_item, dict_getitem.
  rewrite (H "unit_price"), (H comp). reflexivity.
Qed.

Lemma add_price_ratios_equiv (d1 d2 : dict) :
  dict_equiv d1 d2 ->
  match add_price_ratios d1, add_price_ratios d2 with
  | Ok p1, Ok p2 => dict_equiv p1 p2
  | Raise e1, Raise e2 => e1 = e2
  | _, _ => False
  end.
Proof.
  intro H. unfold add_price_ratios.
  rewrite (price_ratio_equiv d1 d2 "comp_1" H).
  destruct (price_ratio d2 "comp_1") as [r1 | e]; cbn [bind]; [| reflexivity].
  pose proof (dict_set_equiv "price_ratio_comp1" r1 _ _ H) as H1.
  rewrite (price_ratio_equiv _ _ "comp_2" H1).
  destruct (price_ratio (dict_set "price_ratio_comp1" r1 d2) "comp_2") as [r2 | e];
    cbn [bind]; [| reflexivity].
  pose proof (dict_set_equiv "price_ratio_comp2" r2 _ _ H1) as H2.
  rewrite (price_ratio_equiv _ _ "comp_3" H2).
  destruct (price_ratio
              (dict_set "price_ratio_comp2" r2 (dict_set "price_ratio_comp1" r1 d2))
              "comp_3") as [r3 | e]; cbn [bind]; [| reflexivity].
  apply dict_set_equiv. exact H2.
Qed.

Lemma build_row_equiv (p1 p2 : dict) (ncs ccs : list string) :
  dict_equiv p1 p2 -> build_row p1 ncs ccs = build_row p2 ncs ccs.
Proof.
  intro H. unfold build_row.
  assert (E0 : forall k, dict_get_default k p1 (PyInt 0) = dict_get_default k p2 (PyInt 0))
    by (intro k; unfold dict_get_default; rewrite (H k); reflexivity).
  assert (E1 : forall k, dict_get_default k p1 PyNone = dict_get_default k p2 PyNone)
    by (intro k; unfold dict_get_default; rewrite (H k); reflexivity).
  assert (F : forall (f g : string -> pyval) ks acc, (forall k, f k = g k) ->
            fold_left (fun row k => dict_set k (f k) row) ks acc =
            fold_left (fun row k => dict_set k (g k) row) ks acc).
  { intros f g ks. induction ks as [| k ks IH]; intros acc Hfg; simpl; [reflexivity |].
    rewrite (Hfg k). apply IH. exact Hfg. }
  rewrite (F _ _ ncs [] E0). apply F. exact E1.
Qed.

(** X8: when the metadata declares [num_cols], the frame
    [make_input_df] builds depends on the payload only through its
    lookups: two payloads that hold the same value under every key,
    in whatever order, give the same frame, or raise the same exception. *)
Theorem make_input_df_ignores_field_order :
  forall (st : State) (md : Metadata) (ncs : list string) (payload1 payload2 : dict),
    METADATA st = Some md ->
    num_cols md = Some ncs ->
    (forall k, dict_get k payload1 = dict_get k payload2) ->
    make_input_df st payload1 = make_input_df st payload2.
Proof.
  intros st md ncs payload1 payload2 Hmd Hncs Heq.
  pose proof (add_price_ratios_equiv payload1 payload2 Heq) as H.
  unfold make_input_df. rewrite Hmd, Hncs.
  destruct (add_price_ratios payload1) as [p1 | e1];
    destruct (add_price_ratios payload2) as [p2 | e2]; cbn [bind]; try contradiction.
  - rewrite (build_row_equiv p1 p2 _ _ H). reflexivity.
  - rewrite H. reflexivity.
Qed.

Lemma make_input_df_ignores_field_order_witness :
  make_input_df (state_with_metadata trained_metadata) shuffled_payload =
  make_input_df (state_with_metadata trained_metadata) (req_dict sample_request).
Proof.
  apply (make_input_df_ignores_field_order (state_with_metadata trained_metadata)
           trained_metadata
           ["unit_price"; "comp_1"; "comp_2"; "comp_3"; "freight_price";
            "price_ratio_comp1"; "price_ratio_comp2"; "price_ratio_comp3"]
           shuffled_payload (req_dict sample_request) eq_refl eq_refl).
  intro k. unfold shuffled_payload, sample_request, req_dict. cbn [dict_get unit_price
    comp_1 comp_2 comp_3 freight_price product_category_name py_optional_str].
  repeat match goal with
         | |- context [String.eqb k ?s] => destruct (String.eqb_spec k s); [subst; reflexivity |]
         end.
  reflexivity.
Defined.

Section FoldSet.

Variable f : string -> pyval.

Lemma fold_set_keys_NoDup (ks : list string) (acc : dict) :
  NoDup (dict_keys acc) ->
  NoDup (dict_keys (fold_left (fun row k => dict_set k (f k) row) ks acc)).
Proof.
  revert acc. induction ks as [| k ks IH]; intros acc Hnd; simpl; [exact Hnd |].
  apply IH. rewrite dict_keys_dict_set.
  destruct (column_in k (dict_keys acc)) eqn:E; [exact Hnd |].
  apply column_in_false in E.
  apply NoDup_app; [exact Hnd | repeat constructor; intros [] | ].
  intros x Hx [<- | []]. contradiction.
Qed.

Lemma fold_set_keys_In (ks : list string) (acc : dict) (k : string) :
  In k (dict_keys (fold_left (fun row k => dict_set k (f k) row) ks acc)) <->
  In k (dict_keys acc) \/ In k ks.
Proof.
  revert acc. induction ks as [| k0 ks IH]; intro acc; simpl; [tauto |].
  rewrite IH, dict_keys_dict_set.
  destruct (column_in k0 (dict_keys acc)) eqn:E.
  - apply column_in_In in E. intuition (subst; auto).
  - rewrite in_app_iff. simpl. intuition (subst; auto).
Qed.

Lemma fold_set_get_other (ks : list string) (acc : dict) (k : string) :
  ~ In k ks ->
  dict_get k (fold_left (fun row k => dict_set k (f k) row) ks acc) = dict_get k acc.
Proof.
  revert acc. induction ks as [| k0 ks IH]; intros acc Hk; simpl; [reflexivity |].
  rewrite IH by (intro H; apply Hk; right; exact H).
  rewrite dict_get_dict_set.
  destruct (String.eqb_spec k k0) as [-> | Hne]; [| reflexivity].
  exfalso. apply Hk. left. reflexivity.
Qed.

Lemma fold_set_get_in (ks : list string) (acc : dict) (k : string) :
  In k ks ->
  dict_get k (fold_left (fun row k => dict_set k (f k) row) ks acc) = Some (f k).
Proof.
  revert acc. induction ks as [| k0 ks IH]; intros acc Hk; simpl; [contradiction |].
  destruct (in_dec string_dec k ks) as [Hin | Hout]; [apply IH; exact Hin |].
  destruct Hk as [-> | Hk]; [| contradiction].
  rewrite fold_set_get_other by exact Hout.
  rewrite dict_get_dict_set, String.eqb_refl. reflexivity.
Qed.

End FoldSet.

(** X7: whenever the metadata declares [num_cols], whatever names it
    declares and however often, the row [make_input_df] builds has no
    repeated column; its columns are exactly the declared names; a name
    declared categorical holds the payload's value or null (also when it
    is declared numeric as well); a name declared numeric only holds the
    payload's value or 0. *)
Theorem make_input_df_row_columns :
  forall (st : State) (payload p : dict) (md : Metadata) (ncs : list string),
    add_price_ratios payload = Ok p ->
    METADATA st = Some md ->
    num_cols md = Some ncs ->
    exists row,
      make_input_df st payload = Ok [row] /\
      NoDup (dict_keys row) /\
      (forall k, In k (dict_keys row) <-> In k ncs \/ In k (declared_cat_cols md)) /\
      (forall c, In c (declared_cat_cols md) ->
         dict_get c row = Some (dict_get_default c p PyNone)) /\
      (forall k, In k ncs -> ~ In k (declared_cat_cols md) ->
         dict_get k row = Some (dict_get_default k p (PyInt 0))).
Proof.
  intros st payload p md ncs Hp Hmd Hncs.
  exists (build_row p ncs (declared_cat_cols md)). split; [| split; [| split; [| split]]].
  - unfold make_input_df. rewrite Hp. cbn [bind]. rewrite Hmd, Hncs. reflexivity.
  - unfold build_row. apply fold_set_keys_NoDup. apply fold_set_keys_NoDup. constructor.
  - intro k. unfold build_row.
    rewrite (fold_set_keys_In (fun c => dict_get_default c p PyNone)).
    rewrite (fold_set_keys_In (fun k => dict_get_default k p (PyInt 0))).
    simpl. tauto.
  - intros c Hc. unfold build_row.
    apply (fold_set_get_in (fun c => dict_get_default c p PyNone)). exact Hc.
  - intros k Hk Hnc. unfold build_row.
    rewrite (fold_set_get_other (fun c => dict_get_default c p PyNone)) by exact Hnc.
    apply (fold_set_get_in (fun k => dict_get_default k p (PyInt 0))). exact Hk.
Qed.

Lemma make_input_df_row_columns_witness :
  exists row,
    make_input_df (state_with_metadata overlapping_metadata) (req_dict sample_request)
      = Ok [row] /\
    NoDup (dict_keys row) /\
    dict_get "region" row = Some PyNone /\
    dict_get "unit_price" row = Some (PyFloat 100).
Proof.
  destruct (make_input_df_row_columns (state_with_metadata overlapping_metadata)
              (req_dict sample_request)
              (req_dict sample_request ++
               ratio_columns (fun den => PyFloat (unit_price sample_request / den))
                 sample_request)%list
              overlapping_metadata ["unit_price"; "region"] eq_refl eq_refl eq_refl)
    as (row & Hdf & Hnd & _ & Hcat & Hnum).
  exists row. repeat apply conj; [exact Hdf | exact Hnd | |].
  - apply (Hcat "region"). left. reflexivity.
  - apply (Hnum "unit_price"); [left; reflexivity |].
    intros [H | []]. discriminate H.
Defined.

Lemma price_ratio_missing_unit_price (p : dict) (comp : string) :
  dict_get "unit_price" p = None -> price_ratio p comp = Raise (KeyError "unit_price").
Proof.
  intro H. unfold price_ratio, float_item, dict_getitem. rewrite H. reflexivity.
Qed.

Lemma price_ratio_missing_comp (p : dict) (comp : string) (u : Q) :
  dict_get "unit_price" p = Some (PyFloat u) -> dict_get comp p = None ->
  price_ratio p comp = Raise (KeyError comp).
Proof.
  intros Hu Hc. unfold price_ratio, float_item, dict_getitem. rewrite Hu, Hc. reflexivity.
Qed.

Lemma price_ratio_ok (p : dict) (comp : string) (u c : Q) :
  dict_get "unit_price" p = Some (PyFloat u) -> dict_get comp p = Some (PyFloat c) ->
  ~ c + eps_ratio == 0 ->
  price_ratio p comp = Ok (PyFloat (u / (c + eps_ratio))).
Proof.
  intros Hu Hc Hnz. apply Qeq_bool_false in Hnz.
  unfold price_ratio, float_item, dict_getitem, py_truediv.
  rewrite Hu, Hc. cbn [bind as_float]. rewrite Hnz. reflexivity.
Qed.

(** X6: [make_input_df] on a payload that lacks a field it divides
    raises [KeyError] for the first field missing in the order
    [unit_price], [comp_1], [comp_2], [comp_3] (the earlier ones being
    floats with nonzero denominators), whatever the metadata. *)
Theorem make_input_df_missing_key :
  forall (st : State) (payload : dict),
    (dict_get "unit_price" payload = None ->
       make_input_df st payload = Raise (KeyError "unit_price")) /\
    (forall u, dict_get "unit_price" payload = Some (PyFloat u) ->
       dict_get "comp_1" payload = None ->
       make_input_df st payload = Raise (KeyError "comp_1")) /\
    (forall u c1,
       dict_get "unit_price" payload = Some (PyFloat u) ->
       dict_get "comp_1" payload = Some (PyFloat c1) -> ~ c1 + eps_ratio == 0 ->
       dict_get "comp_2" payload = None ->
       make_input_df st payload = Raise (KeyError "comp_2")) /\
    (forall u c1 c2,
       dict_get "unit_price" payload = Some (PyFloat u) ->
       dict_get "comp_1" payload = Some (PyFloat c1) -> ~ c1 + eps_ratio == 0 ->
       dict_get "comp_2" payload = Some (PyFloat c2) -> ~ c2 + eps_ratio == 0 ->
       dict_get "comp_3" payload = None ->
       make_input_df st payload = Raise (KeyError "comp_3")).
Proof.
  intros st payload. unfold make_input_df, add_price_ratios. repeat apply conj.
  - intro H. rewrite (price_ratio_missing_unit_price _ _ H). reflexivity.
  - intros u Hu H1. rewrite (price_ratio_missing_comp _ _ u Hu H1). reflexivity.
  - intros u c1 Hu H1 Hn1 H2.
    rewrite (price_ratio_ok _ _ u c1 Hu H1 Hn1). cbn [bind].
    rewrite (price_ratio_missing_comp _ "comp_2" u); [reflexivity | |];
      rewrite dict_get_dict_set; cbn [String.eqb Ascii.eqb Bool.eqb]; assumption.
  - intros u c1 c2 Hu H1 Hn1 H2 Hn2 H3.
    rewrite (price_ratio_ok _ _ u c1 Hu H1 Hn1). cbn [bind].
    rewrite (price_ratio_ok _ "comp_2" u c2);
      [| rewrite dict_get_dict_set; cbn [String.eqb Ascii.eqb Bool.eqb]; assumption ..
       | assumption].
    cbn [bind].
    rewrite (price_ratio_missing_comp _ "comp_3" u); [reflexivity | |];
      rewrite !dict_get_dict_set; cbn [String.eqb Ascii.eqb Bool.eqb]; assumption.
Qed.

Lemma make_input_df_missing_key_witness :
  make_input_df initial_state [("comp_1", PyFloat 90)] = Raise (KeyError "unit_price") /\
  make_input_df initial_state
    [("unit_price", PyFloat 100); ("comp_1", PyFloat 90); ("comp_2", PyFloat 95)]
    = Raise (KeyError "comp_3").
Proof.
  split.
  - apply (proj1 (make_input_df_missing_key initial_state [("comp_1", PyFloat 90)])).
    reflexivity.
  - apply (proj2 (proj2 (proj2 (make_input_df_missing_key initial_state
             [("unit_price", PyFloat 100); ("comp_1", PyFloat 90); ("comp_2", PyFloat 95)])))
             100 90 95); try reflexivity; discriminate.
Defined.

(** ** The optimizer's answer *)

Lemma optimize_profits_features (expm1 : Q -> Q) (COGS : Q) (m : Model)
    (req : PredictRequest) (prices : list Q) :
  prices <> [] ->
  optimize_profits expm1 COGS m (map (candidate_features req) prices) =
    Ok (np_where_profit (map (fun p => p - COGS - freight_price req) prices)
          (optimize_qtys expm1 m (map (candidate_features req) prices))).
Proof.
  intro Hne. unfold optimize_profits.
  rewrite (optimize_margins_features COGS req prices Hne). reflexivity.
Qed.

(** What [optimize] answers, index by index. *)
Lemma optimize_answer_inv (expm1 : Q -> Q) (COGS : Q) (env : Env) (st st' : State)
    (req : PredictRequest) (min_price max_price step : Q) (r : OptimizationResult) :
  optimize expm1 COGS env st req min_price max_price step = (Response200 r, st') ->
  exists m prices i,
    fst (fst (get_model_and_metadata env st)) = Some m /\
    price_grid min_price max_price step = Ok prices /\
    nth_error prices i = Some (best_price r) /\
    nth_error (optimize_qtys expm1 m (map (candidate_features req) prices)) i
      = Some (best_qty r) /\
    best_profit r =
      (if Qltb 0 (best_price r - COGS - freight_price req)
       then (best_price r - COGS - freight_price req) * best_qty r else 0) /\
    (forall j pj qj,
       nth_error prices j = Some pj ->
       nth_error (optimize_qtys expm1 m (map (candidate_features req) prices)) j
         = Some qj ->
       (if Qltb 0 (pj - COGS - freight_price req)
        then (pj - COGS - freight_price req) * qj else 0) <= best_profit r /\
       ((j < i)%nat ->
        (if Qltb 0 (pj - COGS - freight_price req)
         then (pj - COGS - freight_price req) * qj else 0) < best_profit r)).
Proof.
  intro H.
  destruct (optimize_returns_inv _ _ _ _ _ _ _ _ _ _ H) as (m & prices & Hm & Hgrid & Hsel).
  destruct (optimize_select_spec _ _ _ _ _ _ Hsel)
    as (profits & i & Hprofits & Harg & Hprice & Hprofit & Hqty).
  assert (Hne : prices <> []) by (intro E; subst; destruct i; discriminate).
  rewrite (optimize_profits_features expm1 COGS m req prices Hne) in Hprofits.
  inversion Hprofits as [Hp]. clear Hprofits.
  assert (Hnth : forall j pj qj,
             nth_error prices j = Some pj ->
             nth_error (optimize_qtys expm1 m (map (candidate_features req) prices)) j
               = Some qj ->
             nth_error profits j =
               Some (if Qltb 0 (pj - COGS - freight_price req)
                     then (pj - COGS - freight_price req) * qj else 0)).
  { intros j pj qj Hpj Hqj. rewrite <- Hp. apply np_where_profit_nth; [| exact Hqj].
    rewrite nth_error_map, Hpj. reflexivity. }
  destruct (np_argmax_spec _ _ Harg) as (b & Hb & Hmax & Hfirst).
  assert (b = best_profit r) by congruence. subst b.
  exists m, prices, i. repeat apply conj; try assumption.
  - pose proof (Hnth i _ _ Hprice Hqty) as Hi. congruence.
  - intros j pj qj Hpj Hqj. pose proof (Hnth j pj qj Hpj Hqj) as Hj. split.
    + eapply Hmax. exact Hj.
    + intro Hlt. eapply Hfirst; [exact Hj | exact Hlt].
Qed.

(** X10: the three numbers [optimize] answers belong together:
    [best_profit] is the margin of [best_price] times [best_qty] when
    that margin ([best_price - COGS - freight_price]) is positive, and 0
    otherwise. *)
Theorem optimize_answer_is_consistent :
  forall (expm1 : Q -> Q) (COGS : Q) (env : Env) (st st' : State)
         (req : PredictRequest) (min_price max_price step : Q)
         (r : OptimizationResult),
    optimize expm1 COGS env st req min_price max_price step = (Response200 r, st') ->
    (0 < best_price r - COGS - freight_price req ->
       best_profit r = (best_price r - COGS - freight_price req) * best_qty r) /\
    (best_price r - COGS - freight_price req <= 0 -> best_profit r = 0).
Proof.
  intros expm1 COGS env st st' req min_price max_price step r H.
  destruct (optimize_answer_inv _ _ _ _ _ _ _ _ _ _ H)
    as (m & prices & i & _ & _ & _ & _ & Hprofit & _).
  rewrite Hprofit.
  case_Qltb 0 (best_price r - COGS - freight_price req); split; intro Hm;
    try reflexivity; exfalso; lra.
Qed.

Lemma optimize_answer_is_consistent_witness :
  fst (optimize expm1_stub 50 (loaded_env (constant_model 0)) initial_state
         sample_request 61 62 1) =
    Response200 {| best_price := 61; best_profit := 0; best_qty := 0 |} /\
  0 = (61 - 50 - freight_price sample_request) * 0.
Proof.
  split; [reflexivity |].
  pose proof (proj1 (optimize_answer_is_consistent expm1_stub 50
                       (loaded_env (constant_model 0)) initial_state
                       {| MODEL := Some (constant_model 0);
                          METADATA := Some {| num_cols := None; cat_cols := None |};
                          load_calls := 1 |}
                       sample_request 61 62 1
                       {| best_price := 61; best_profit := 0; best_qty := 0 |} eq_refl))
    as H.
  apply H. reflexivity.
Defined.

(** ** Which candidate wins *)

Lemma optimize_qtys_nth (expm1 : Q -> Q) (m : Model) (df : DataFrame) (j : nat) :
  (j < List.length df)%nat ->
  exists qj, nth_error (optimize_qtys expm1 m df) j = Some qj /\ 0 <= qj.
Proof.
  intro Hj.
  destruct (nth_error (optimize_qtys expm1 m df) j) as [qj |] eqn:E.
  - exists qj. split; [reflexivity |].
    pose proof (optimize_qtys_nonneg expm1 m df) as Hq. rewrite Forall_forall in Hq.
    apply Hq. eapply nth_error_In; eassumption.
  - apply nth_error_None in E. rewrite optimize_qtys_length in E. lia.
Qed.

Lemma optimize_answers_on_grid (expm1 : Q -> Q) (COGS : Q) (env : Env) (st : State)
    (m : Model) (req : PredictRequest) (min_price max_price step : Q)
    (p : Q) (prices : list Q) :
  fst (fst (get_model_and_metadata env st)) = Some m ->
  price_grid min_price max_price step = Ok (p :: prices) ->
  exists r,
    optimize expm1 COGS env st req min_price max_price step =
      (Response200 r, snd (get_model_and_metadata env st)).
Proof.
  intros Hm Hgrid. unfold optimize.
  destruct (get_model_and_metadata env st) as [[model md] st']. simpl in Hm. subst model.
  rewrite optimize_body_req, Hgrid. cbn [bind].
  destruct (optimize_select_total expm1 COGS m req (p :: prices)) as [r Hr];
    [discriminate |].
  exists r. rewrite Hr. reflexivity.
Qed.

(** What the scan over a list of prices selects, index by index. *)
Lemma optimize_select_features_inv (expm1 : Q -> Q) (COGS : Q) (m : Model)
    (req : PredictRequest) (prices : list Q) (r : OptimizationResult) :
  optimize_select expm1 COGS m prices (map (candidate_features req) prices) = Ok r ->
  exists i,
    nth_error prices i = Some (best_price r) /\
    nth_error (optimize_qtys expm1 m (map (candidate_features req) prices)) i
      = Some (best_qty r) /\
    best_profit r =
      (if Qltb 0 (best_price r - COGS - freight_price req)
       then (best_price r - COGS - freight_price req) * best_qty r else 0) /\
    (forall j pj qj,
       nth_error prices j = Some pj ->
       nth_error (optimize_qtys expm1 m (map (candidate_features req) prices)) j
         = Some qj ->
       (if Qltb 0 (pj - COGS - freight_price req)
        then (pj - COGS - freight_price req) * qj else 0) <= best_profit r /\
       ((j < i)%nat ->
        (if Qltb 0 (pj - COGS - freight_price req)
         then (pj - COGS - freight_price req) * qj else 0) < best_profit r)).
Proof.
  intro Hsel.
  destruct (optimize_select_spec _ _ _ _ _ _ Hsel)
    as (profits & i & Hprofits & Harg & Hprice & Hprofit & Hqty).
  assert (Hne : prices <> []) by (intro E; subst; destruct i; discriminate).
  rewrite (optimize_profits_features expm1 COGS m req prices Hne) in Hprofits.
  inversion Hprofits as [Hp]. clear Hprofits.
  assert (Hnth : forall j pj qj,
             nth_error prices j = Some pj ->
             nth_error (optimize_qtys expm1 m (map (candidate_features req) prices)) j
               = Some qj ->
             nth_error profits j =
               Some (if Qltb 0 (pj - COGS - freight_price req)
                     then (pj - COGS - freight_price req) * qj else 0)).
  { intros j pj qj Hpj Hqj. rewrite <- Hp. apply np_where_profit_nth; [| exact Hqj].
    rewrite nth_error_map, Hpj. reflexivity. }
  destruct (np_argmax_spec _ _ Harg) as (b & Hb & Hmax & Hfirst).
  assert (b = best_profit r) by congruence. subst b.
  exists i. repeat apply conj; try assumption.
  - pose proof (Hnth i _ _ Hprice Hqty) as Hi. congruence.
  - intros j pj qj Hpj Hqj. pose proof (Hnth j pj qj Hpj Hqj) as Hj. split.
    + eapply Hmax. exact Hj.
    + intro Hlt. eapply Hfirst; [exact Hj | exact Hlt].
Qed.

Lemma price_grid_double_first (max_alloc : Z) (min_price max_price step : Q)
    (p : Q) (prices : list Q) :
  price_grid_double max_alloc min_price max_price step = Ok (p :: prices) ->
  p = min_price.
Proof.
  intro H. apply price_grid_double_Ok in H. simpl in H. inversion H. reflexivity.
Qed.

(** X13: when [np.arange] returns a grid with at least one point and no
    price of the grid exceeds the cost [COGS + freight_price], every
    candidate's profit is 0 and [optimize], with a model loaded, answers
    the first grid point, [min_price], with profit 0. *)
Theorem unprofitable_range_answers_min_price :
  forall (expm1 : Q -> Q) (COGS : Q) (max_alloc : Z) (env : Env) (st : State)
         (m : Model) (req : PredictRequest) (min_price max_price step : Q)
         (p : Q) (prices : list Q),
    fst (fst (get_model_and_metadata env st)) = Some m ->
    price_grid_double max_alloc min_price max_price step = Ok (p :: prices) ->
    (forall x, In x (p :: prices) -> x <= COGS + freight_price req) ->
    exists r,
      fst (optimize_double expm1 COGS max_alloc env st req min_price max_price step)
        = Response200 r /\
      best_price r = min_price /\
      best_profit r = 0.
Proof.
  intros expm1 COGS max_alloc env st m req min_price max_price step p prices
         Hm Hgrid Hcost.
  rewrite (optimize_double_loaded _ _ _ _ _ _ _ _ _ _ Hm). cbn [fst].
  rewrite Hgrid. cbn [bind].
  destruct (optimize_select_total expm1 COGS m req (p :: prices)) as [r Hr];
    [discriminate |].
  exists r. rewrite Hr. split; [reflexivity |].
  destruct (optimize_select_features_inv _ _ _ _ _ _ Hr)
    as (i & Hprice & Hqty & Hprofit & Hall).
  assert (Hunprofitable : forall x, In x (p :: prices) ->
                            Qltb 0 (x - COGS - freight_price req) = false).
  { intros x Hx. apply Qltb_ge. specialize (Hcost x Hx). lra. }
  assert (Hzero : best_profit r = 0).
  { rewrite Hprofit, Hunprofitable; [reflexivity |].
    eapply nth_error_In; eassumption. }
  split; [| exact Hzero].
  destruct i as [| i].
  - simpl in Hprice.
    assert (Hp : best_price r = p) by congruence.
    rewrite Hp. apply (price_grid_double_first _ _ _ _ _ _ Hgrid).
  - exfalso.
    destruct (optimize_qtys_nth expm1 m (map (candidate_features req) (p :: prices)) 0)
      as [q0 [Hq0 _]]; [simpl; lia |].
    destruct (Hall 0%nat p q0 eq_refl Hq0) as [_ Hfirst].
    specialize (Hfirst ltac:(lia)).
    rewrite Hunprofitable in Hfirst by (left; reflexivity).
    rewrite Hzero in Hfirst. revert Hfirst. apply Qlt_irrefl.
Qed.

(** The range 1 to 5 by 1, with a freight price of 260. *)
Lemma unprofitable_range_answers_min_price_witness :
  exists r,
    fst (optimize_double expm1_stub 50 1000000 (loaded_env (constant_model 0))
           initial_state
           {| unit_price := 100; comp_1 := 90; comp_2 := 95; comp_3 := 105;
              freight_price := 260; product_category_name := None |} 1 5 1)
      = Response200 r /\
    best_price r = 1 /\
    best_profit r = 0.
Proof.
  apply (unprofitable_range_answers_min_price expm1_stub 50 1000000%Z
           (loaded_env (constant_model 0)) initial_state (constant_model 0)
           {| unit_price := 100; comp_1 := 90; comp_2 := 95; comp_3 := 105;
              freight_price := 260; product_category_name := None |} 1 5 1
           1 [2; 3; 4; 5] eq_refl).
  - vm_compute. reflexivity.
  - intros x Hx. simpl in Hx.
    destruct Hx as [<- | [<- | [<- | [<- | [<- | []]]]]]; discriminate.
Defined.




(** ** One candidate against one prediction *)

Lemma where_is_py_max (mg q q' : Q) :
  0 <= q -> q' == q ->
  (if Qltb 0 mg then mg * q' else 0) == py_max 0 (mg * q).
Proof.
  intros Hq E. unfold py_max.
  case_Qltb 0 mg; case_Qltb 0 (mg * q); try rewrite E; try lra.
  - assert (H : 0 <= mg * q) by (apply Qmult_le_0_compat; lra). lra.
  - assert (H : mg * q <= 0) by (apply Qmult_nonpos_nonneg; lra). lra.
Qed.

(** X9: scanning the single candidate [p] gives what [predict] gives for
    the same request priced at [p].  When the metadata declares no
    [num_cols] and no competitor price is [-1e-6], the frame [predict]
    builds for the request with [unit_price = p] is the optimizer's row
    for [p], and the optimizer's selection over that one row answers
    price [p] with the quantity and the profit [predict] computes. *)
Theorem single_candidate_matches_predict :
  forall (expm1 : Q -> Q) (COGS : Q) (st : State) (m : Model)
         (req : PredictRequest) (p : Q),
    (forall md, METADATA st = Some md -> num_cols md = None) ->
    ~ comp_1 req == - eps_ratio ->
    ~ comp_2 req == - eps_ratio ->
    ~ comp_3 req == - eps_ratio ->
    let req_p := {| unit_price := p; comp_1 := comp_1 req; comp_2 := comp_2 req;
                    comp_3 := comp_3 req; freight_price := freight_price req;
                    product_category_name := product_category_name req |} in
    make_input_df st (req_dict req_p) = optimize_rows (req_dict req) [p] /\
    exists r r',
      predict_body expm1 COGS st m req_p = Ok r /\
      (let* df := optimize_rows (req_dict req) [p] in
       optimize_select expm1 COGS m [p] df) = Ok r' /\
      best_price r' = p /\
      best_qty r' == predicted_qty r /\
      best_profit r' == predicted_profit r.
Proof.
  intros expm1 COGS st m req p Hmd H1 H2 H3 req_p.
  apply denominator_nonzero in H1, H2, H3.
  assert (Hrows : optimize_rows (req_dict req) [p] = Ok [candidate_features req p])
    by apply optimize_rows_req.
  assert (Hdf : make_input_df st (req_dict req_p) = Ok [candidate_features req p]).
  { unfold make_input_df. rewrite (add_price_ratios_req req_p H1 H2 H3). cbn [bind].
    assert (E : (req_dict req_p ++
                 ratio_columns (fun den => PyFloat (unit_price req_p / den)) req_p)%list
                = candidate_features req p).
    { unfold candidate_features, ratio_columns.
      rewrite !np_truediv_nonzero by assumption. reflexivity. }
    rewrite E. destruct (METADATA st) as [md |] eqn:Emd; [| reflexivity].
    rewrite (Hmd md eq_refl). reflexivity. }
  split; [rewrite Hdf, Hrows; reflexivity |].
  pose proof (model_predict_length m [candidate_features req p]) as Hlen.
  destruct (model_predict m [candidate_features req p]) as [| lp [| x rest]] eqn:Hp;
    try discriminate.
  exists (prediction_of expm1 COGS lp req_p).
  exists {| best_price := p;
            best_profit := (if Qltb 0 (p - COGS - freight_price req)
                            then (p - COGS - freight_price req)
                                 * (if Qltb (expm1 lp) 0 then 0 else expm1 lp)
                            else 0);
            best_qty := (if Qltb (expm1 lp) 0 then 0 else expm1 lp) |}.
  repeat apply conj.
  - unfold predict_body. rewrite Hdf. cbn [bind]. rewrite Hp. reflexivity.
  - rewrite Hrows. cbn [bind]. unfold optimize_select.
    pose proof (optimize_profits_features expm1 COGS m req [p] ltac:(discriminate))
      as Hpf.
    cbn [map] in Hpf. rewrite Hpf. cbn [bind].
    unfold optimize_qtys. rewrite Hp. reflexivity.
  - reflexivity.
  - cbn [best_qty predicted_qty prediction_of]. apply clip_is_py_max.
  - cbn [best_profit predicted_profit prediction_of unit_price freight_price req_p].
    apply where_is_py_max; [apply py_max_nonneg | apply clip_is_py_max].
Qed.

Lemma single_candidate_matches_predict_witness :
  make_input_df initial_state (req_dict sample_request) =
    optimize_rows (req_dict cheap_request) [100].
Proof.
  apply (proj1 (single_candidate_matches_predict expm1_stub 50 initial_state
                  (constant_model 0) cheap_request 100
                  ltac:(intros md H; discriminate H)
                  (nonneg_is_not_minus_eps 90 ltac:(discriminate))
                  (nonneg_is_not_minus_eps 95 ltac:(discriminate))
                  (nonneg_is_not_minus_eps 105 ltac:(discriminate)))).
Defined.

(** ** Training and serving *)

Lemma column_in_filter (c : string) (g : string -> bool) (l : list string) :
  column_in c (filter g l) = column_in c l && g c.
Proof.
  unfold column_in. induction l as [| x l IH]; simpl; [reflexivity |].
  destruct (g x) eqn:Eg; simpl; rewrite IH.
  - destruct (String.eqb_spec c x) as [-> | Hne]; simpl; [rewrite Eg |]; reflexivity.
  - destruct (String.eqb_spec c x) as [-> | Hne]; simpl; [rewrite Eg |]; [| reflexivity].
    rewrite andb_false_r. reflexivity.
Qed.

Lemma column_in_app (c : string) (l1 l2 : list string) :
  column_in c (l1 ++ l2) = column_in c l1 || column_in c l2.
Proof.
  unfold column_in. apply existsb_app.
Qed.

(** The columns left after the drop of [build_and_train]. *)
Lemma column_in_after_drop (c : string) (csv : list string) :
  column_in c ["product_id"; "month_year"; "total_price"] = false ->
  column_in c (match train_drop_cols csv with
               | [] => csv
               | _ => drop_columns (train_drop_cols csv) csv
               end) = column_in c csv.
Proof.
  intro Hc.
  assert (Hd : column_in c (train_drop_cols csv) = false)
    by (unfold train_drop_cols; rewrite column_in_filter, Hc; reflexivity).
  destruct (train_drop_cols csv) as [| d ds] eqn:E; [reflexivity |].
  unfold drop_columns. rewrite column_in_filter, Hd. apply andb_true_r.
Qed.

Lemma column_in_assign (new a b c : string) (columns columns' : list string) :
  assign_ratio_column new a b columns = Ok columns' ->
  column_in c columns' = column_in c columns || String.eqb c new.
Proof.
  unfold assign_ratio_column.
  destruct (column_in a columns); [| discriminate].
  destruct (column_in b columns); [| discriminate].
  intro H. inversion H; subst. clear H.
  destruct (column_in new columns) eqn:E.
  - destruct (String.eqb_spec c new) as [-> | Hne];
      [rewrite E; reflexivity | rewrite orb_false_r; reflexivity].
  - rewrite column_in_app. unfold column_in at 2. simpl. rewrite orb_false_r. reflexivity.
Qed.

Lemma assign_ratio_column_cases (new a b : string) (columns : list string) :
  assign_ratio_column new a b columns =
    if column_in a columns then
      if column_in b columns then
        Ok (if column_in new columns then columns else columns ++ [new])%list
      else Raise (KeyError b)
    else Raise (KeyError a).
Proof.
  reflexivity.
Qed.

(** [build_and_train], column by column. *)
Lemma build_and_train_columns_cases (csv : list string) :
  build_and_train_columns csv =
    if negb (column_in "unit_price" csv) then Raise (KeyError "unit_price")
    else if negb (column_in "comp_1" csv) then Raise (KeyError "comp_1")
    else if negb (column_in "comp_2" csv) then Raise (KeyError "comp_2")
    else if negb (column_in "comp_3" csv) then Raise (KeyError "comp_3")
    else if negb (column_in "freight_price" csv)
         then Raise (KeyError "['freight_price'] not in index")
    else if negb (column_in "qty" csv) then Raise (KeyError "qty")
    else Ok {| num_cols := Some train_num_cols;
               cat_cols := Some (train_cat_cols csv) |}.
Proof.
  unfold build_and_train_columns.
  set (columns0 := match train_drop_cols csv with
                   | [] => csv
                   | _ => drop_columns (train_drop_cols csv) csv
                   end).
  assert (H0 : forall c, column_in c ["product_id"; "month_year"; "total_price"] = false ->
                         column_in c columns0 = column_in c csv)
    by (intros c Hc; apply column_in_after_drop; exact Hc).
  destruct (assign_ratio_column "price_ratio_comp1" "unit_price" "comp_1" columns0)
    as [columns1 | e1] eqn:E1.
  2: { unfold assign_ratio_column in E1. rewrite !H0 in E1 by reflexivity.
       destruct (column_in "unit_price" csv); simpl; [| congruence].
       destruct (column_in "comp_1" csv); simpl; [discriminate | congruence]. }
  pose proof (fun c => column_in_assign _ _ _ c _ _ E1) as H1.
  unfold assign_ratio_column in E1. rewrite !H0 in E1 by reflexivity.
  destruct (column_in "unit_price" csv) eqn:Eu; [| discriminate].
  destruct (column_in "comp_1" csv) eqn:Ec1; [| discriminate]. clear E1.
  cbn [bind negb].
  destruct (assign_ratio_column "price_ratio_comp2" "unit_price" "comp_2" columns1)
    as [columns2 | e2] eqn:E2.
  2: { unfold assign_ratio_column in E2. rewrite !H1, !H0 in E2 by reflexivity.
       rewrite Eu in E2. simpl in E2.
       destruct (column_in "comp_2" csv); simpl in *; [discriminate | congruence]. }
  pose proof (fun c => column_in_assign _ _ _ c _ _ E2) as H2.
  unfold assign_ratio_column in E2. rewrite !H1, !H0 in E2 by reflexivity.
  rewrite Eu in E2. simpl in E2.
  destruct (column_in "comp_2" csv) eqn:Ec2; [| discriminate]. clear E2.
  cbn [bind negb].
  destruct (assign_ratio_column "price_ratio_comp3" "unit_price" "comp_3" columns2)
    as [columns3 | e3] eqn:E3.
  2: { unfold assign_ratio_column in E3. rewrite !H2, !H1, !H0 in E3 by reflexivity.
       rewrite Eu in E3. simpl in E3.
       destruct (column_in "comp_3" csv); simpl in *; [discriminate | congruence]. }
  pose proof (fun c => column_in_assign _ _ _ c _ _ E3) as H3.
  unfold assign_ratio_column in E3. rewrite !H2, !H1, !H0 in E3 by reflexivity.
  rewrite Eu in E3. simpl in E3.
  destruct (column_in "comp_3" csv) eqn:Ec3; [| discriminate]. clear E3.
  cbn [bind negb].
  assert (Hin : forall c,
            column_in c ["product_id"; "month_year"; "total_price"] = false ->
            column_in c columns3 =
              column_in c csv || String.eqb c "price_ratio_comp1"
              || String.eqb c "price_ratio_comp2" || String.eqb c "price_ratio_comp3").
  { intros c Hc. rewrite H3, H2, H1, (H0 c Hc). reflexivity. }
  assert (Hcat : train_cat_cols columns3 = train_cat_cols csv).
  { unfold train_cat_cols. cbn [filter]. rewrite Hin by reflexivity.
    cbn [String.eqb Ascii.eqb Bool.eqb]. rewrite !orb_false_r. reflexivity. }
  rewrite Hcat. unfold select_columns, train_num_cols. rewrite filter_app. cbn [filter].
  rewrite !Hin by reflexivity. rewrite Eu, Ec1, Ec2, Ec3.
  cbn [String.eqb Ascii.eqb Bool.eqb orb negb]. rewrite !orb_true_r. cbn [negb].
  assert (Hfilter : filter (fun c => negb (column_in c columns3)) (train_cat_cols csv) = []).
  { unfold train_cat_cols. cbn [filter].
    destruct (column_in "product_category_name" csv) eqn:Ep; [| reflexivity].
    cbn [filter]. rewrite Hin by reflexivity. rewrite Ep. reflexivity. }
  rewrite Hfilter.
  destruct (column_in "freight_price" csv) eqn:Ef; cbn [orb negb bind app];
    [| reflexivity].
  rewrite ?orb_false_r.
  destruct (column_in "qty" csv); reflexivity.
Qed.

Lemma build_and_train_columns_Ok (csv : list string) (md : Metadata) :
  build_and_train_columns csv = Ok md ->
  md = {| num_cols := Some train_num_cols; cat_cols := Some (train_cat_cols csv) |} /\
  forall c, In c train_required_columns -> column_in c csv = true.
Proof.
  rewrite build_and_train_columns_cases.
  destruct (column_in "unit_price" csv) eqn:E1; [| discriminate].
  destruct (column_in "comp_1" csv) eqn:E2; [| discriminate].
  destruct (column_in "comp_2" csv) eqn:E3; [| discriminate].
  destruct (column_in "comp_3" csv) eqn:E4; [| discriminate].
  destruct (column_in "freight_price" csv) eqn:E5; [| discriminate].
  destruct (column_in "qty" csv) eqn:E6; [| discriminate].
  cbn [negb]. intro H. inversion H. split; [reflexivity |].
  intros c [<- | [<- | [<- | [<- | [<- | [<- | []]]]]]]; assumption.
Qed.

(** X16: a CSV whose header lacks one of the six columns
    [build_and_train] reads by name ([unit_price], [comp_1], [comp_2],
    [comp_3], [freight_price], [qty]) never reaches the fit: the script
    stops with an exception at a column lookup, before anything is
    fitted or written. *)
Theorem build_and_train_requires_columns :
  forall (csv : list string) (c : string),
    In c train_required_columns ->
    ~ In c csv ->
    exists e, build_and_train_columns csv = Raise e.
Proof.
  intros csv c Hc Hmissing.
  destruct (build_and_train_columns csv) as [md | e] eqn:E; [| eauto].
  exfalso. apply Hmissing.
  destruct (build_and_train_columns_Ok csv md E) as [_ Hall].
  apply column_in_In. apply Hall. exact Hc.
Qed.

(** A header without [qty]. *)
Lemma build_and_train_requires_columns_witness :
  exists e,
    build_and_train_columns
      ["unit_price"; "comp_1"; "comp_2"; "comp_3"; "freight_price"] = Raise e.
Proof.
  apply (build_and_train_requires_columns
           ["unit_price"; "comp_1"; "comp_2"; "comp_3"; "freight_price"] "qty").
  - simpl. auto 10.
  - simpl. intros [H | [H | [H | [H | [H | []]]]]]; discriminate H.
Defined.

(** X15: the metadata [build_and_train] writes fits the requests the
    service accepts.  Its declared names are the eight numeric features
    and, when the CSV has it, [product_category_name], none repeated;
    under it [make_input_df] fills every numeric column from the request
    and its ratios (none is defaulted to 0), in the trained order, and
    the category last. *)
Theorem trained_metadata_fits_requests :
  forall (csv : list string) (md : Metadata) (st : State) (req : PredictRequest),
    build_and_train_columns csv = Ok md ->
    METADATA st = Some md ->
    ~ comp_1 req == - eps_ratio ->
    ~ comp_2 req == - eps_ratio ->
    ~ comp_3 req == - eps_ratio ->
    num_cols md = Some train_num_cols /\
    declared_cat_cols md =
      (if column_in "product_category_name" csv then ["product_category_name"] else []) /\
    NoDup (train_num_cols ++ declared_cat_cols md) /\
    make_input_df st (req_dict req) =
      Ok [([ ("unit_price", PyFloat (unit_price req));
             ("comp_1", PyFloat (comp_1 req));
             ("comp_2", PyFloat (comp_2 req));
             ("comp_3", PyFloat (comp_3 req));
             ("freight_price", PyFloat (freight_price req));
             ("price_ratio_comp1",
               PyFloat (unit_price req / (comp_1 req + eps_ratio)));
             ("price_ratio_comp2",
               PyFloat (unit_price req / (comp_2 req + eps_ratio)));
             ("price_ratio_comp3",
               PyFloat (unit_price req / (comp_3 req + eps_ratio))) ]
           ++ map (fun c => (c, py_optional_str (product_category_name req)))
                  (declared_cat_cols md))%list].
Proof.
  intros csv md st req Htrain Hmd H1 H2 H3.
  destruct (build_and_train_columns_Ok csv md Htrain) as [-> _].
  apply denominator_nonzero in H1, H2, H3.
  unfold make_input_df. rewrite (add_price_ratios_req req H1 H2 H3), Hmd.
  unfold declared_cat_cols, train_cat_cols. cbn [num_cols cat_cols filter bind].
  destruct (column_in "product_category_name" csv); repeat apply conj;
    try reflexivity;
    repeat (constructor; [simpl; intuition discriminate |]); constructor.
Qed.

Lemma trained_metadata_fits_requests_witness :
  build_and_train_columns retail_header = Ok trained_metadata /\
  make_input_df (state_with_metadata trained_metadata) (req_dict sample_request) =
    Ok [[ ("unit_price", PyFloat 100); ("comp_1", PyFloat 90); ("comp_2", PyFloat 95);
          ("comp_3", PyFloat 105); ("freight_price", PyFloat 10);
          ("price_ratio_comp1", PyFloat (100 / (90 + eps_ratio)));
          ("price_ratio_comp2", PyFloat (100 / (95 + eps_ratio)));
          ("price_ratio_comp3", PyFloat (100 / (105 + eps_ratio)));
          ("product_category_name", PyNone) ]].
Proof.
  split; [reflexivity |].
  apply (proj2 (proj2 (proj2
           (trained_metadata_fits_requests retail_header trained_metadata
              (state_with_metadata trained_metadata) sample_request eq_refl eq_refl
              (nonneg_is_not_minus_eps 90 ltac:(discriminate))
              (nonneg_is_not_minus_eps 95 ltac:(discriminate))
              (nonneg_is_not_minus_eps 105 ltac:(discriminate)))))).
Defined.
